(** * Daily Planhat metrics update: a shallow embedding of [main.py]

    The job downloads one usage CSV, fetches the company roster, computes two
    metrics per company and posts them.  This file embeds the four functions
    of [main.py] and the entry point [pull_and_update], and proves the
    properties the specification states about them.

    Modelling conventions.
    - A Python [str] is a Rocq [string]; every character is read as the code
      point of the same number (0..255), and [isspace] and [lower] are the
      Unicode ones on that range.
    - A float is an exact rational ([Q]): sums, quotients and products are
      exact, and [round(x, 2)] is rounding to the nearest hundredth with ties
      to the even neighbour.  The numbers of the examples of the
      specification are exact in binary floating point as well.
    - The usage table has its two columns [OrganizationID] (text) and
      [Total]; a [Total] value is given with what [pandas.to_numeric] makes
      of it.  The roster fields are texts or [None].
    - A function that assigns to its argument returns the new value of the
      argument next to its result.
    - Code that logs, calls a collaborator or raises runs in the monad [M]:
      it produces a list of events, and a raised exception keeps the events
      produced before it.  Log messages are kept as the logging call and the
      values it interpolates.
    - What the outside answers (environment, clock, bucket, HTTP endpoints,
      the parsers of the libraries) is a [World]. *)

From Stdlib Require Import ZArith QArith Qround Bool List Ascii String Lia Lqa.
Import ListNotations.

Local Open Scope string_scope.
Local Open Scope Z_scope.

(* ================================================================= *)
(** ** Strings: [str.strip], [str.lower], [in], [str.endswith] *)

Module PyStr.

(** [str.isspace] on one character: U+0009..U+000D, U+001C..U+0020, U+0085
    and U+00A0 are the white-space code points below 256. *)
Definition isspace (c : ascii) : bool :=
  let n := N_of_ascii c in
  (((9 <=? n) && (n <=? 13)) || ((28 <=? n) && (n <=? 32))
   || (n =? 133) || (n =? 160))%N.

(** Upper-case letters below 256: A..Z, and U+00C0..U+00DE without the
    multiplication sign U+00D7. *)
Definition isupper (c : ascii) : bool :=
  let n := N_of_ascii c in
  (((65 <=? n) && (n <=? 90))
   || ((192 <=? n) && (n <=? 222) && negb (n =? 215)))%N.

Definition lower_char (c : ascii) : ascii :=
  if isupper c then ascii_of_N (N_of_ascii c + 32) else c.

(** [s.lower()] *)
Fixpoint lower (s : string) : string :=
  match s with
  | EmptyString => EmptyString
  | String c s' => String (lower_char c) (lower s')
  end.

(** [s.lstrip()] *)
Fixpoint lstrip (s : string) : string :=
  match s with
  | EmptyString => EmptyString
  | String c s' => if isspace c then lstrip s' else s
  end.

Definition is_empty (s : string) : bool :=
  match s with EmptyString => true | String _ _ => false end.

(** [s.rstrip()] *)
Fixpoint rstrip (s : string) : string :=
  match s with
  | EmptyString => EmptyString
  | String c s' =>
      let r := rstrip s' in
      if isspace c && is_empty r then EmptyString else String c r
  end.

(** [s.strip()] *)
Definition strip (s : string) : string := rstrip (lstrip s).

(** [s.startswith(p)] *)
Fixpoint startswith (p s : string) : bool :=
  match p, s with
  | EmptyString, _ => true
  | String _ _, EmptyString => false
  | String a p', String b s' => Ascii.eqb a b && startswith p' s'
  end.

(** [p in s] for two strings: [p] occurs in [s] as a substring. *)
Fixpoint contains (p s : string) : bool :=
  startswith p s ||
  match s with
  | EmptyString => false
  | String _ s' => contains p s'
  end.

(** [s.endswith(p)] *)
Fixpoint endswith (p s : string) : bool :=
  String.eqb p s ||
  match s with
  | EmptyString => false
  | String _ s' => endswith p s'
  end.

(** [x in xs] for a list or a set of strings. *)
Definition mem (x : string) (xs : list string) : bool :=
  existsb (String.eqb x) xs.

(** A string of white space only. *)
Fixpoint blank (s : string) : bool :=
  match s with
  | EmptyString => true
  | String c s' => isspace c && blank s'
  end.

End PyStr.

(* ================================================================= *)
(** ** Dates: [datetime], [calendar.monthrange], [strftime], [strptime] *)

Record datetime := mkdate { year : Z; month : Z; day : Z }.

Module Calendar.

(** [calendar.isleap] *)
Definition isleap (y : Z) : bool :=
  (y mod 4 =? 0) && (negb (y mod 100 =? 0) || (y mod 400 =? 0)).

(** [calendar.mdays] *)
Definition mdays : list Z := [0; 31; 28; 31; 30; 31; 30; 31; 31; 30; 31; 30; 31].

(** The second component of [calendar.monthrange(year, month)]: the number
    of days of the month. *)
Definition monthrange_days (y m : Z) : Z :=
  nth (Z.to_nat m) mdays 0 + (if (m =? 2) && isleap y then 1 else 0).

End Calendar.

(** The values a [datetime] object can hold. *)
Definition valid_date (d : datetime) : Prop :=
  1 <= year d <= 9999 /\ 1 <= month d <= 12 /\
  1 <= day d <= Calendar.monthrange_days (year d) (month d).

Definition valid_dateb (d : datetime) : bool :=
  (1 <=? year d) && (year d <=? 9999) && (1 <=? month d) && (month d <=? 12)
  && (1 <=? day d) && (day d <=? Calendar.monthrange_days (year d) (month d)).

(* ================================================================= *)
(** ** Numbers and the usage table *)

(** A value of the [Total] column as [pandas.to_numeric] sees it: a number
    (numeric text included), text that is no number, or a missing value. *)
Inductive cell :=
| Num (q : Q)
| Text (s : string)
| NaN.

Record UsageRow := mkrow { OrganizationID : string; Total : cell }.

Definition DataFrame := list UsageRow.

Module Pandas.

(** [pd.to_numeric(x, errors='coerce')]: what cannot be read as a number
    becomes the missing value [None]. *)
Definition to_numeric (c : cell) : option Q :=
  match c with
  | Num q => Some q
  | Text _ => None
  | NaN => None
  end.

(** [.fillna(v)] *)
Definition fillna (v : Q) (x : option Q) : Q :=
  match x with
  | Some q => q
  | None => v
  end.

(** [Series.sum()] of a numeric column: missing values are skipped. *)
Definition sum (col : list cell) : Q :=
  fold_left (fun acc c => acc + fillna 0 (to_numeric c))%Q col 0%Q.

End Pandas.

(** Rounding to the nearest integer, ties to even. *)
Definition rint (x : Q) : Z :=
  let f := Qfloor x in
  match Qcompare (x - inject_Z f) (1 # 2) with
  | Lt => f
  | Gt => f + 1
  | Eq => if Z.even f then f else f + 1
  end.

(** [round(x, 2)] *)
Definition round2 (x : Q) : Q := (inject_Z (rint (x * 100)) / 100)%Q.

(** [str(org_id).strip().lower()] *)
Definition normalize (org_id : string) : string :=
  PyStr.lower (PyStr.strip org_id).

(** [calculate_metrics(df_current, org_ids, data_date)].  The function
    assigns to two columns of the table it is given, so it returns the table
    as the caller sees it afterwards, and the pair it computes. *)
Definition calculate_metrics (df_current : DataFrame) (org_ids : list string)
    (data_date : datetime) : DataFrame * (Q * Q) :=
  let org_ids := map (fun org_id => PyStr.lower (PyStr.strip org_id)) org_ids in
  let df_current :=
    map (fun r => {| OrganizationID := PyStr.lower (PyStr.strip (OrganizationID r));
                     Total := Total r |}) df_current in
  let df_current :=
    map (fun r => {| OrganizationID := OrganizationID r;
                     Total := Num (Pandas.fillna 0 (Pandas.to_numeric (Total r))) |})
        df_current in
  let df_current_org :=
    filter (fun r => PyStr.mem (OrganizationID r) org_ids) df_current in
  let cumulative_total := Pandas.sum (map Total df_current_org) in
  let days_passed := day data_date in
  let days_in_month := Calendar.monthrange_days (year data_date) (month data_date) in
  let average_daily_cpus :=
    if 0 <? days_passed then (cumulative_total / inject_Z days_passed)%Q else 0%Q in
  let forecasted_cpus := (average_daily_cpus * inject_Z days_in_month)%Q in
  (df_current, (round2 cumulative_total, round2 forecasted_cpus)).


(* ================================================================= *)
(** ** Exceptions, events and the monad of the effectful code *)

(** The exception classes the program and its collaborators raise. *)
Inductive exc_class :=
| Exception
| NotFound | Forbidden | GoogleAPIError
| RequestException | HTTPError | ConnectionError
| TypeError | ValueError | JSONDecodeError | OverflowError | AttributeError.

Record exn := mkexn { exn_class : exc_class; exn_detail : string }.

(** The direct base class, as the libraries declare it ([Exception] is the
    root of the classes above). *)
Definition base_class (c : exc_class) : option exc_class :=
  match c with
  | Exception => None
  | NotFound | Forbidden => Some GoogleAPIError
  | HTTPError | ConnectionError => Some RequestException
  | JSONDecodeError => Some ValueError
  | GoogleAPIError | RequestException | TypeError | ValueError
  | OverflowError | AttributeError => Some Exception
  end.

Definition exc_class_eqb (a b : exc_class) : bool :=
  match a, b with
  | Exception, Exception | NotFound, NotFound | Forbidden, Forbidden
  | GoogleAPIError, GoogleAPIError | RequestException, RequestException
  | HTTPError, HTTPError | ConnectionError, ConnectionError
  | TypeError, TypeError | ValueError, ValueError
  | JSONDecodeError, JSONDecodeError | OverflowError, OverflowError
  | AttributeError, AttributeError => true
  | _, _ => false
  end.

(** [issubclass(c, k)]; the class hierarchy has depth three. *)
Fixpoint issubclass_upto (n : nat) (c k : exc_class) : bool :=
  exc_class_eqb c k ||
  match n with
  | O => false
  | S n' =>
      match base_class c with
      | Some b => issubclass_upto n' b k
      | None => false
      end
  end.

Definition issubclass (c k : exc_class) : bool := issubclass_upto 3 c k.

Inductive result (A : Type) :=
| Ret (a : A)
| Raise (e : exn).
Arguments Ret {A} a.
Arguments Raise {A} e.

Inductive level := INFO | WARNING | ERROR.

(** One data point of the body of the analytics POST. *)
Record DataPoint := mkpoint {
  dimensionId : string;
  value : Q;
  externalId : string;
  model : string;
  date : string
}.

(** One constructor per logging call of [main.py], with the values its
    message interpolates. *)
Inductive log_msg :=
| MsgAccessingBucket (bucket_name target_date : string)
| MsgFoundFile (blob_name : string)
| MsgFileProcessed
| MsgNoFileFound (target_date : string)
| MsgBucketDoesNotExist (bucket_name : string) (e : exn)
| MsgAccessForbidden (bucket_name : string) (e : exn)
| MsgGoogleAPIError (e : exn)
| MsgUnexpectedError (e : exn)
| MsgFetchingCompanies
| MsgFetchedCompanies (n : nat)
| MsgErrorFetchingCompanies (e : exn)
| MsgUpdatingPlanhat (company_name : option string)
| MsgPlanhatUpdated (company_name : option string)
| MsgErrorUpdatingPlanhat (company_name : option string) (e : exn)
| MsgNewline
| MsgEnvVarsNotSet
| MsgCurrentDataNotAvailable
| MsgFailedToFetchCompanies
| MsgNoOrgId (company_name : option string)
| MsgMultipleOrgIds (company_name : option string) (org_ids : list string)
| MsgSingleOrgId (company_name : option string) (org_id : string)
| MsgCompany (company_name : option string)
| MsgDate (date_str : string)
| MsgCumulative (cumulative_cpus : Q)
| MsgForecasted (forecasted_cpus : Q)
| MsgScriptCompleted.

(** What the program does to the outside, in order. *)
Inductive event :=
| Log (lvl : level) (msg : log_msg)
| StorageGetBucket (bucket_name : string)
| StorageDownload (blob_name : string)
| HttpGet (url authorization : string) (offset limit : Z)
| HttpPost (url authorization : string) (data : list DataPoint)
| Sleep (seconds : Z).

(** A piece of effectful code: given the number of POST requests sent so
    far (the outside answers the n-th one), it gives a result or a raised
    exception, the events it produced, and the new number of requests. *)
Definition M (A : Type) : Type := nat -> result A * list event * nat.

Definition ret {A} (a : A) : M A := fun n => (Ret a, [], n).

Definition bind {A B} (m : M A) (f : A -> M B) : M B :=
  fun n =>
    match m n with
    | (Ret a, t1, n1) => let '(r, t2, n2) := f a n1 in (r, (t1 ++ t2)%list, n2)
    | (Raise e, t1, n1) => (Raise e, t1, n1)
    end.

Definition raise {A} (e : exn) : M A := fun n => (Raise e, [], n).

(** [raise] the exception a collaborator answered with, or go on. *)
Definition lift {A} (r : result A) : M A := fun n => (r, [], n).

Definition emit (ev : event) : M unit := fun n => (Ret tt, [ev], n).

Definition log (lvl : level) (msg : log_msg) : M unit := emit (Log lvl msg).

Notation "x <- m ;; k" := (bind m (fun x => k))
  (at level 61, m at next level, right associativity).
Notation "m ;; k" := (bind m (fun _ => k))
  (at level 61, right associativity).

(** [try: body  except k1 as e: h1 e  except k2 as e: h2 e ...]: the first
    clause whose class the exception is an instance of handles it; with no
    such clause the exception goes on to the caller. *)
Fixpoint find_handler {A} (e : exn) (clauses : list (exc_class * (exn -> M A)))
  : option (M A) :=
  match clauses with
  | [] => None
  | (k, h) :: rest =>
      if issubclass (exn_class e) k then Some (h e) else find_handler e rest
  end.

Definition try_except {A} (body : M A) (clauses : list (exc_class * (exn -> M A)))
  : M A :=
  fun n =>
    match body n with
    | (Ret a, t1, n1) => (Ret a, t1, n1)
    | (Raise e, t1, n1) =>
        match find_handler e clauses with
        | Some h => let '(r, t2, n2) := h n1 in (r, (t1 ++ t2)%list, n2)
        | None => (Raise e, t1, n1)
        end
    end.

(** A run from the start of the program: the result and the events. *)
Definition run {A} (m : M A) : result A * list event := fst (m O).

(* ================================================================= *)
(** ** Date arithmetic and formatting *)

Module Datetime.

(** [d - timedelta(days=1)]; the day before 0001-01-01 does not exist. *)
Definition minus_one_day (d : datetime) : result datetime :=
  if 1 <? day d then Ret (mkdate (year d) (month d) (day d - 1))
  else if 1 <? month d then
    Ret (mkdate (year d) (month d - 1)
                (Calendar.monthrange_days (year d) (month d - 1)))
  else if 1 <? year d then Ret (mkdate (year d - 1) 12 31)
  else Raise (mkexn OverflowError "date value out of range").

Definition digit_char (n : Z) : ascii := ascii_of_N (Z.to_N (48 + n mod 10)).

Definition pad2 (n : Z) : string :=
  String (digit_char (n / 10)) (String (digit_char n) EmptyString).

Definition pad4 (n : Z) : string :=
  String (digit_char (n / 1000)) (String (digit_char (n / 100)) (pad2 n)).

(** [d.strftime('%Y-%m-%d')] *)
Definition strftime (d : datetime) : string :=
  pad4 (year d) ++ "-" ++ pad2 (month d) ++ "-" ++ pad2 (day d).

Definition digit_val (c : ascii) : option Z :=
  let n := Z.of_N (N_of_ascii c) in
  if (48 <=? n) && (n <=? 57) then Some (n - 48) else None.

Definition is_dash (c : ascii) : bool := Ascii.eqb c "-".

(** The month field of [strptime]: [1[0-2]|0[1-9]|[1-9]]. *)
Definition parse_month (s : string) : option Z :=
  match s with
  | String a EmptyString =>
      match digit_val a with
      | Some x => if 1 <=? x then Some x else None
      | None => None
      end
  | String a (String b EmptyString) =>
      match digit_val a, digit_val b with
      | Some x, Some y =>
          if ((x =? 1) && (y <=? 2)) || ((x =? 0) && (1 <=? y))
          then Some (10 * x + y) else None
      | _, _ => None
      end
  | _ => None
  end.

(** The day field of [strptime]: [3[01]|[12]\d|0[1-9]|[1-9]| [1-9]]. *)
Definition parse_day (s : string) : option Z :=
  match s with
  | String a EmptyString =>
      match digit_val a with
      | Some x => if 1 <=? x then Some x else None
      | None => None
      end
  | String a (String b EmptyString) =>
      match digit_val a, digit_val b with
      | Some x, Some y =>
          if ((x =? 3) && (y <=? 1)) || (x =? 1) || (x =? 2)
             || ((x =? 0) && (1 <=? y))
          then Some (10 * x + y) else None
      | None, Some y => if Ascii.eqb a " " && (1 <=? y) then Some y else None
      | _, _ => None
      end
  | _ => None
  end.

(** Splits at the first dash. *)
Fixpoint split_dash (s : string) : option (string * string) :=
  match s with
  | EmptyString => None
  | String c s' =>
      if is_dash c then Some (EmptyString, s')
      else match split_dash s' with
           | Some (l, r) => Some (String c l, r)
           | None => None
           end
  end.

Definition parse_ymd (s : string) : option datetime :=
  match s with
  | String a (String b (String c (String d (String e rest)))) =>
      match digit_val a, digit_val b, digit_val c, digit_val d with
      | Some x3, Some x2, Some x1, Some x0 =>
          if is_dash e then
            match split_dash rest with
            | Some (ms, ds) =>
                match parse_month ms, parse_day ds with
                | Some m, Some dd =>
                    Some (mkdate (1000 * x3 + 100 * x2 + 10 * x1 + x0) m dd)
                | _, _ => None
                end
            | None => None
            end
          else None
      | _, _, _, _ => None
      end
  | _ => None
  end.

(** [datetime.strptime(s, '%Y-%m-%d')]: the text must have the format and
    name a date that exists. *)
Definition strptime (s : string) : result datetime :=
  match parse_ymd s with
  | Some d =>
      if valid_dateb d then Ret d
      else Raise (mkexn ValueError "date out of range")
  | None => Raise (mkexn ValueError "time data does not match format")
  end.

End Datetime.

(* ================================================================= *)
(** ** JSON values and the roster *)

(** The result of [json.loads]. *)
#[warnings="-register-all"]
Inductive json :=
| JNull
| JBool (b : bool)
| JNum (q : Q)
| JStr (s : string)
| JArr (items : list json)
| JObj (fields : list (string * json)).

(** The truth value Python gives a decoded JSON value: [None], [False],
    zero and the empty string, list and dict are false. *)
Definition json_truthy (j : json) : bool :=
  match j with
  | JNull => false
  | JBool b => b
  | JNum q => negb (Qeq_bool q 0)
  | JStr s => negb (PyStr.is_empty s)
  | JArr items => match items with [] => false | _ => true end
  | JObj fields => match fields with [] => false | _ => true end
  end.

(** One row of the roster table: the three fields [fetch_planhat_companies]
    reads from a company with [.get], each a text or [None]. *)
Record Company := mkcompany {
  Planhat_ID : option string;
  Org_ID : option string;
  Company_Name : option string
}.

(** The truth value of a text or [None]. *)
Definition truthy (x : option string) : bool :=
  match x with
  | Some s => negb (PyStr.is_empty s)
  | None => false
  end.

(* ================================================================= *)
(** ** The outside world *)

(** An object of the bucket: its name, and what downloading and decoding
    it gives. *)
Record Blob := mkblob { blob_name : string; download_as_string : result string }.

(** The iterator [bucket.list_blobs()] returns: the objects come one by one,
    and asking for the next one can raise. *)
Inductive blob_iterator :=
| IterEnd
| IterNext (blob : Blob) (rest : blob_iterator)
| IterRaise (e : exn).

(** The answer to an HTTP request: it did not get through, or a status. *)
Inductive http_answer (A : Type) :=
| NoAnswer (detail : string)
| Answer (status_code : Z) (body : A).
Arguments NoAnswer {A} detail.
Arguments Answer {A} status_code body.

(** Everything the run reads from outside: the environment, the clock, the
    libraries' parsers, the bucket and the two HTTP endpoints. *)
Record World := mkworld {
  getenv : string -> option string;
  json_loads : string -> result json;
  utcnow : datetime;
  (* client creation and [get_bucket]: the listing of the bucket *)
  get_bucket : json -> string -> result blob_iterator;
  read_csv : string -> result DataFrame;
  (* GET /companies; the body is the decoded list of companies *)
  get_companies : string -> Z -> http_answer (result (list Company));
  (* the n-th POST /dimensiondata *)
  post_dimensiondata : nat -> string -> list DataPoint -> http_answer unit
}.

(** [response.raise_for_status()] *)
Definition raise_for_status (status_code : Z) : M unit :=
  if (400 <=? status_code) && (status_code <? 600)
  then raise (mkexn HTTPError "error status")
  else ret tt.

(* ================================================================= *)
(** ** [download_and_process_csv_for_date] *)

(** The loop over the listed objects: the first one whose name contains the
    date and ends in [.csv] is downloaded, parsed and returned. *)
Fixpoint first_csv_for_date (w : World) (target_date : string) (blobs : blob_iterator)
  : M (option DataFrame) :=
  match blobs with
  | IterEnd =>
      log WARNING (MsgNoFileFound target_date) ;;
      ret None
  | IterRaise e => raise e
  | IterNext blob rest =>
      if PyStr.contains target_date (blob_name blob)
         && PyStr.endswith ".csv" (blob_name blob)
      then
        log INFO (MsgFoundFile (blob_name blob)) ;;
        emit (StorageDownload (blob_name blob)) ;;
        csv_content <- lift (download_as_string blob) ;;
        df <- lift (read_csv w csv_content) ;;
        log INFO MsgFileProcessed ;;
        ret (Some df)
      else first_csv_for_date w target_date rest
  end.

Definition download_and_process_csv_for_date (w : World) (bucket_name : string)
    (service_account_info : json) (target_date : string) : M (option DataFrame) :=
  try_except
    (emit (StorageGetBucket bucket_name) ;;
     bucket <- lift (get_bucket w service_account_info bucket_name) ;;
     log INFO (MsgAccessingBucket bucket_name target_date) ;;
     let blobs := bucket in
     first_csv_for_date w target_date blobs)
    [ (NotFound, fun e => log ERROR (MsgBucketDoesNotExist bucket_name e) ;; ret None);
      (Forbidden, fun e => log ERROR (MsgAccessForbidden bucket_name e) ;; ret None);
      (GoogleAPIError, fun e => log ERROR (MsgGoogleAPIError e) ;; ret None);
      (Exception, fun e => log ERROR (MsgUnexpectedError e) ;; ret None) ].

(* ================================================================= *)
(** ** [fetch_planhat_companies] *)

Definition companies_url : string := "https://api.planhat.com/companies".

Definition bearer (api_token : string) : string := "Bearer " ++ api_token.

(** [requests.get] / [requests.post]: a request that does not get through
    raises a [RequestException]. *)
Definition http_result {A} (a : http_answer A) : M (Z * A) :=
  match a with
  | NoAnswer detail => raise (mkexn ConnectionError detail)
  | Answer status_code body => ret (status_code, body)
  end.

Definition fetch_planhat_companies (w : World) (api_token : string) (limit : Z)
  : M (option (list Company)) :=
  try_except
    (log INFO MsgFetchingCompanies ;;
     emit (HttpGet companies_url (bearer api_token) 0 limit) ;;
     response <- http_result (get_companies w api_token limit) ;;
     raise_for_status (fst response) ;;
     df <- lift (snd response) ;;
     log INFO (MsgFetchedCompanies (List.length df)) ;;
     ret (Some df))
    [ (Exception, fun e => log ERROR (MsgErrorFetchingCompanies e) ;; ret None) ].

(* ================================================================= *)
(** ** [update_planhat] *)

Definition planhat_tenant_id : string := "8fbda5b0-f5fd-4d6f-86e2-1d9eecf0322a".

Definition dimensiondata_url : string :=
  "https://analytics.planhat.com/dimensiondata/" ++ planhat_tenant_id.

(** [requests.post]: the outside answers the requests in the order they
    are sent. *)
Definition http_post (w : World) (url authorization : string) (data : list DataPoint)
  : M (Z * unit) :=
  fun n =>
    (emit (HttpPost url authorization data) ;;
     http_result (post_dimensiondata w n url data)) (S n).

Definition update_planhat (w : World) (api_token : string)
    (company_id : option string) (org_id date_str : string)
    (cumulative_cpus forecasted_cpus : Q) (company_name : option string) : M unit :=
  let url := dimensiondata_url in
  upload_date <- lift (Datetime.strptime date_str) ;;
  let data :=
    [ {| dimensionId := "Cumulative Billable CPUs";
         value := cumulative_cpus;
         externalId := org_id;
         model := "Asset";
         date := Datetime.strftime upload_date |};
      {| dimensionId := "Forecasted Billable CPUs";
         value := forecasted_cpus;
         externalId := org_id;
         model := "Asset";
         date := Datetime.strftime upload_date |} ] in
  try_except
    (log INFO (MsgUpdatingPlanhat company_name) ;;
     response <- http_post w url (bearer api_token) data ;;
     raise_for_status (fst response) ;;
     log INFO (MsgPlanhatUpdated company_name))
    [ (RequestException,
       fun e => log ERROR (MsgErrorUpdatingPlanhat company_name e)) ] ;;
  log INFO MsgNewline.

(* ================================================================= *)
(** ** [pull_and_update] *)

(** The static alias sets: the org ids of one customer. *)
Definition org_id_sets : list (list string) :=
  [ [ "7ba2041d-b88f-4b67-a63a-64e78962b014";
      "a29883b2-997e-4b44-8bf5-a0a95bbdf639" ];   (* Provenir *)
    [ "551cf481-0042-4076-a5a1-a78e23193c84";
      "c116cabe-9d57-46c3-b37b-a93e8f52967e" ] ]. (* OneTrust *)

(** The inner loop: the first alias set that contains the id. *)
Fixpoint find_matching_set (company_org_id : string) (sets : list (list string))
  : option (list string) :=
  match sets with
  | [] => None
  | org_set :: rest =>
      if PyStr.mem company_org_id org_set then Some org_set
      else find_matching_set company_org_id rest
  end.

(** The truth value of [matching_set]: a set that is not empty. *)
Definition set_truthy (x : option (list string)) : bool :=
  match x with
  | Some (_ :: _) => true
  | _ => false
  end.

(** The body of the loop over the roster; [df_current] is the table as the
    earlier iterations left it, and the table as this one leaves it is
    returned.  [if not company_org_id] holds for [None] and for the empty
    text, the last branch of the match. *)
Definition process_company (w : World) (api_token date_str : string)
    (data_date : datetime) (df_current : DataFrame) (company : Company)
  : M DataFrame :=
  let company_org_id := Org_ID company in
  let company_name := Company_Name company in
  let planhat_id := Planhat_ID company in
  match company_org_id with
  | Some (String c o) =>
      let company_org_id := String c o in
      let matching_set := find_matching_set company_org_id org_id_sets in
      org_ids <-
        (if set_truthy matching_set then
           let org_ids := match matching_set with Some x => x | None => [] end in
           log INFO (MsgMultipleOrgIds company_name org_ids) ;;
           ret org_ids
         else
           let org_ids := [company_org_id] in
           log INFO (MsgSingleOrgId company_name company_org_id) ;;
           ret org_ids) ;;
      let '(df_current, (cumulative_cpus, forecasted_cpus)) :=
        calculate_metrics df_current org_ids data_date in
      log INFO (MsgCompany company_name) ;;
      log INFO (MsgDate date_str) ;;
      log INFO (MsgCumulative cumulative_cpus) ;;
      log INFO (MsgForecasted forecasted_cpus) ;;
      update_planhat w api_token planhat_id company_org_id date_str
                     cumulative_cpus forecasted_cpus company_name ;;
      emit (Sleep 1) ;;
      ret df_current
  | _ =>
      log WARNING (MsgNoOrgId company_name) ;;
      ret df_current
  end.

(** [for _, company in df_companies.iterrows(): ...] *)
Fixpoint process_companies (w : World) (api_token date_str : string)
    (data_date : datetime) (df_current : DataFrame) (df_companies : list Company)
  : M DataFrame :=
  match df_companies with
  | [] => ret df_current
  | company :: rest =>
      df_current <- process_company w api_token date_str data_date df_current company ;;
      process_companies w api_token date_str data_date df_current rest
  end.

(** [json.loads(s)] on the value of an environment variable: an unset
    variable is [None], which [json.loads] refuses. *)
Definition json_loads_env (w : World) (s : option string) : M json :=
  match s with
  | None => raise (mkexn TypeError "the JSON object must be str, bytes or bytearray, not NoneType")
  | Some s => lift (json_loads w s)
  end.

Definition config_error : M (string * Z) :=
  log ERROR MsgEnvVarsNotSet ;;
  ret ("Env var configuration error", 500).

Definition pull_and_update (w : World) : M (string * Z) :=
  let service_account_json_str := getenv w "GCP_SERVICE_ACCOUNT_JSON" in
  service_account_info <- json_loads_env w service_account_json_str ;;
  let api_token := getenv w "PLANHAT_API_TOKEN" in
  let planhat_tenant_id := getenv w "PLANHAT_TENANT_TOKEN" in
  let bucket_name := getenv w "BILLING_BUCKET_NAME" in
  if negb (truthy bucket_name) || negb (json_truthy service_account_info)
     || negb (truthy api_token)
  then config_error
  else
    match bucket_name, api_token with
    | Some bucket_name, Some api_token =>
        let execution_date := utcnow w in
        data_date <- lift (Datetime.minus_one_day execution_date) ;;
        let date_str := Datetime.strftime data_date in
        df_current <-
          download_and_process_csv_for_date w bucket_name service_account_info
            (Datetime.strftime execution_date) ;;
        match df_current with
        | None =>
            log ERROR MsgCurrentDataNotAvailable ;;
            ret ("CSV data not available", 500)
        | Some df_current =>
            df_companies <- fetch_planhat_companies w api_token 500 ;;
            match df_companies with
            | None =>
                log ERROR MsgFailedToFetchCompanies ;;
                ret ("Failed to fetch companies", 500)
            | Some df_companies =>
                process_companies w api_token date_str data_date
                                  df_current df_companies ;;
                log INFO MsgScriptCompleted ;;
                ret ("Success", 200)
            end
        end
    | _, _ => config_error
    end.

(* ================================================================= *)
(** ** The notions the specification uses *)

(** Two characters that differ at most in letter case: an upper-case
    letter and the letter 32 code points above it. *)
Inductive case_variant : ascii -> ascii -> Prop :=
| cv_same a : case_variant a a
| cv_down a :
    PyStr.isupper a = true -> case_variant a (ascii_of_N (N_of_ascii a + 32))
| cv_up a :
    PyStr.isupper a = true -> case_variant (ascii_of_N (N_of_ascii a + 32)) a.

(** Two strings that differ at most in the case of their letters. *)
Inductive case_alike : string -> string -> Prop :=
| ca_nil : case_alike EmptyString EmptyString
| ca_cons a b s t :
    case_variant a b -> case_alike s t -> case_alike (String a s) (String b t).

(** Two ids that differ at most in letter case and in leading and trailing
    white space. *)
Inductive id_variant (s t : string) : Prop :=
| idv (l1 c1 r1 l2 c2 r2 : string) :
    s = l1 ++ c1 ++ r1 -> t = l2 ++ c2 ++ r2 ->
    PyStr.blank l1 = true -> PyStr.blank r1 = true ->
    PyStr.blank l2 = true -> PyStr.blank r2 = true ->
    case_alike c1 c2 -> id_variant s t.

(** Two rows that differ at most by such a change of the id. *)
Definition row_variant (r r' : UsageRow) : Prop :=
  id_variant (OrganizationID r) (OrganizationID r') /\ Total r = Total r'.

(** A [Total] value counts as its number, or as 0 when it is no number. *)
Definition total_or_zero (c : cell) : Q :=
  match c with
  | Num q => q
  | Text _ => 0
  | NaN => 0
  end.

(** The row's normalized id belongs to the normalized id set. *)
Definition belongs (org_ids : list string) (r : UsageRow) : Prop :=
  In (normalize (OrganizationID r)) (map normalize org_ids).

Definition belongs_dec (org_ids : list string) (r : UsageRow)
  : {belongs org_ids r} + {~ belongs org_ids r} :=
  in_dec string_dec (normalize (OrganizationID r)) (map normalize org_ids).

(** The sum of [Total] over the rows that belong to the id set. *)
Fixpoint cumulative (df : DataFrame) (org_ids : list string) : Q :=
  match df with
  | [] => 0
  | r :: rest =>
      ((if belongs_dec org_ids r then total_or_zero (Total r) else 0)
       + cumulative rest org_ids)%Q
  end.

(** Leap years of the Gregorian calendar. *)
Definition leap_year (y : Z) : bool :=
  if y mod 400 =? 0 then true
  else if y mod 100 =? 0 then false
  else y mod 4 =? 0.

(** The number of days of a month. *)
Definition days_in_month (y m : Z) : Z :=
  match m with
  | 2 => if leap_year y then 29 else 28
  | 4 | 6 | 9 | 11 => 30
  | _ => 31
  end.

(** The pair the specification gives for a table, an id set and a date. *)
Definition metrics (df : DataFrame) (org_ids : list string) (d : datetime) : Q * Q :=
  let S := cumulative df org_ids in
  (round2 S,
   round2 ((S / inject_Z (day d)) * inject_Z (days_in_month (year d) (month d)))%Q).

(** Equality of two pairs of numbers. *)
Definition metrics_eq (a b : Q * Q) : Prop :=
  (fst a == fst b)%Q /\ (snd a == snd b)%Q.

(** The table with every [OrganizationID] normalized and every [Total]
    replaced by the number it counts as. *)
Definition cleaned (df : DataFrame) : DataFrame :=
  map (fun r => {| OrganizationID := normalize (OrganizationID r);
                   Total := Num (total_or_zero (Total r)) |}) df.

(** The ids whose rows count for a company: all ids of the alias set its id
    is a member of, or its own id alone. *)
Definition effective_ids (org_id : string) : list string :=
  match find (fun alias_set => PyStr.mem org_id alias_set) org_id_sets with
  | Some alias_set => alias_set
  | None => [org_id]
  end.

(** The publish request for one company: the two metrics as data points of
    the given date, under the company's own id. *)
Definition publish_request (api_token date_str org_id : string) (m : Q * Q) : event :=
  HttpPost dimensiondata_url (bearer api_token)
    [ mkpoint "Cumulative Billable CPUs" (fst m) org_id "Asset" date_str;
      mkpoint "Forecasted Billable CPUs" (snd m) org_id "Asset" date_str ].

Definition is_log (ev : event) : bool :=
  match ev with Log _ _ => true | _ => false end.

Definition is_post (ev : event) : bool :=
  match ev with HttpPost _ _ _ => true | _ => false end.

(** The events of a trace that reach a collaborator. *)
Definition effects (t : list event) : list event :=
  filter (fun ev => negb (is_log ev)) t.

(** The publish requests of a trace. *)
Definition posts_of (t : list event) : list event := filter is_post t.

(** What the loop over a roster does to the outside: for every company
    that has an org id, one publish request with the metrics of the table
    [df] over the company's ids, and a pause; nothing for the others. *)
Definition roster_effects (api_token : string) (d : datetime) (df : DataFrame)
    (roster : list Company) : list event :=
  flat_map
    (fun c =>
       match Org_ID c with
       | Some (String a o) =>
           [ publish_request api_token (Datetime.strftime d) (String a o)
               (metrics df (effective_ids (String a o)) d);
             Sleep 1 ]
       | _ => []
       end) roster.

(** The configuration the entry point needs is there. *)
Definition config_ok (w : World) (info : json) (bucket_name api_token : string) : Prop :=
  (exists s, getenv w "GCP_SERVICE_ACCOUNT_JSON" = Some s /\ json_loads w s = Ret info)
  /\ json_truthy info = true
  /\ getenv w "BILLING_BUCKET_NAME" = Some bucket_name
  /\ PyStr.is_empty bucket_name = false
  /\ getenv w "PLANHAT_API_TOKEN" = Some api_token
  /\ PyStr.is_empty api_token = false.

(** The world in which the roster endpoint answers with the given roster. *)
Definition with_roster (w : World) (roster : list Company) : World :=
  {| getenv := getenv w;
     json_loads := json_loads w;
     utcnow := utcnow w;
     get_bucket := get_bucket w;
     read_csv := read_csv w;
     get_companies := fun _ _ => Answer 200 (Ret roster);
     post_dimensiondata := post_dimensiondata w |}.

(** Code that sends no POST request: the number of requests stays, and
    nothing depends on it. *)
Definition sends_nothing {A} (m : M A) : Prop :=
  forall n, m n = (fst (run m), snd (run m), n).

(** The objects an iterator gives before it ends or raises. *)
Fixpoint listed (blobs : blob_iterator) : list Blob :=
  match blobs with
  | IterEnd => []
  | IterNext blob rest => blob :: listed rest
  | IterRaise _ => []
  end.

(** The object's name contains the date. *)
Definition has_date (target_date : string) (b : Blob) : Prop :=
  exists pre post, blob_name b = pre ++ target_date ++ post.

(** The object's name ends in [.csv]. *)
Definition is_csv (b : Blob) : Prop :=
  exists pre, blob_name b = pre ++ ".csv".

(* ================================================================= *)
(** ** Sample inputs *)

Definition sample_usage : DataFrame :=
  [ mkrow " OrgA " (Num 100);
    mkrow "ORGA" (Text "n/a");
    mkrow "orga" (Num 50);
    mkrow "7BA2041D-b88f-4b67-a63a-64e78962b014" (Num 7);
    mkrow "a29883b2-997e-4b44-8bf5-a0a95bbdf639" (Num 5) ].

Definition sample_roster : list Company :=
  [ mkcompany (Some "p1") (Some "orga") (Some "A");
    mkcompany (Some "p2") None (Some "B");
    mkcompany (Some "p3") (Some "a29883b2-997e-4b44-8bf5-a0a95bbdf639")
              (Some "Provenir") ].

(** Three of the four variables are set; the tenant identifier is not. *)
Definition sample_env (name : string) : option string :=
  if String.eqb name "GCP_SERVICE_ACCOUNT_JSON" then Some "{}"
  else if String.eqb name "PLANHAT_API_TOKEN" then Some "token"
  else if String.eqb name "BILLING_BUCKET_NAME" then Some "billing"
  else None.

Definition sample_info : json := JObj [("type", JStr "service_account")].

Definition sample_world : World :=
  {| getenv := sample_env;
     json_loads := fun _ => Ret sample_info;
     utcnow := mkdate 2024 3 1;
     get_bucket := fun _ _ =>
       Ret (IterNext (mkblob "usage-2024-03-01.txt" (Ret EmptyString))
           (IterNext (mkblob "usage-2024-03-01.csv" (Ret "OrganizationID,Total"))
            IterEnd));
     read_csv := fun _ => Ret sample_usage;
     get_companies := fun _ _ => Answer 200 (Ret sample_roster);
     post_dimensiondata := fun n _ _ =>
       if Nat.eqb n 0 then Answer 500 tt else Answer 200 tt |}.

(** The sample world with one environment variable unset. *)
Definition unset (name : string) (w : World) : World :=
  {| getenv := fun k => if String.eqb k name then None else getenv w k;
     json_loads := json_loads w;
     utcnow := utcnow w;
     get_bucket := get_bucket w;
     read_csv := read_csv w;
     get_companies := get_companies w;
     post_dimensiondata := post_dimensiondata w |}.

(** The sample world with another bucket behaviour. *)
Definition with_bucket (w : World) (b : result blob_iterator) : World :=
  {| getenv := getenv w;
     json_loads := json_loads w;
     utcnow := utcnow w;
     get_bucket := fun _ _ => b;
     read_csv := read_csv w;
     get_companies := get_companies w;
     post_dimensiondata := post_dimensiondata w |}.

Definition provenir_upper : string := "A29883B2-997E-4B44-8BF5-A0A95BBDF639".
Definition provenir_lower : string := "a29883b2-997e-4b44-8bf5-a0a95bbdf639".

(* ================================================================= *)
(** ** The roster rows, from the decoded response *)

(** The value of a key of a dict; the dict is given by its items, each key
    once. *)
Fixpoint assoc (key : string) (fields : list (string * json)) : option json :=
  match fields with
  | [] => None
  | (k, v) :: rest => if String.eqb key k then Some v else assoc key rest
  end.

(** [d.get(key, default)]: only a dict has the method. *)
Definition dict_get (d : json) (key : string) (default : json) : result json :=
  match d with
  | JObj fields =>
      Ret (match assoc key fields with Some v => v | None => default end)
  | _ => Raise (mkexn AttributeError "object has no attribute 'get'")
  end.

(** One element of [batch_data], with the values as they were decoded. *)
Record RawCompany := mkraw {
  raw_Planhat_ID : json;
  raw_Org_ID : json;
  raw_Company_Name : json
}.

(** The dict the comprehension builds for one company [c]. *)
Definition batch_row (c : json) : result RawCompany :=
  match dict_get c "_id" JNull with
  | Raise e => Raise e
  | Ret planhat_id =>
      match dict_get c "custom" (JObj []) with
      | Raise e => Raise e
      | Ret custom =>
          match dict_get custom "Org ID" JNull with
          | Raise e => Raise e
          | Ret org_id =>
              match dict_get c "name" JNull with
              | Raise e => Raise e
              | Ret name => Ret (mkraw planhat_id org_id name)
              end
          end
      end
  end.

Fixpoint chars (s : string) : list json :=
  match s with
  | EmptyString => []
  | String c s' => JStr (String c EmptyString) :: chars s'
  end.

(** [for c in companies]: a list gives its items, a dict its keys, a text
    its characters; nothing else can be iterated. *)
Definition py_iter (companies : json) : result (list json) :=
  match companies with
  | JArr items => Ret items
  | JObj fields => Ret (map (fun kv => JStr (fst kv)) fields)
  | JStr s => Ret (chars s)
  | _ => Raise (mkexn TypeError "object is not iterable")
  end.

Fixpoint batch_rows (items : list json) : result (list RawCompany) :=
  match items with
  | [] => Ret []
  | c :: rest =>
      match batch_row c with
      | Raise e => Raise e
      | Ret row =>
          match batch_rows rest with
          | Raise e => Raise e
          | Ret rows => Ret (row :: rows)
          end
      end
  end.

(** [batch_data = [{...} for c in companies]] *)
Definition batch_data (companies : json) : result (list RawCompany) :=
  match py_iter companies with
  | Raise e => Raise e
  | Ret items => batch_rows items
  end.

(** [fetch_planhat_companies] on the decoded response: [answer] is what the
    GET request meets, its body what [response.json()] gives. *)
Definition fetch_planhat_companies_json (answer : http_answer (result json))
    (api_token : string) (limit : Z) : M (option (list RawCompany)) :=
  try_except
    (log INFO MsgFetchingCompanies ;;
     emit (HttpGet companies_url (bearer api_token) 0 limit) ;;
     response <- http_result answer ;;
     raise_for_status (fst response) ;;
     companies <- lift (snd response) ;;
     batch_data <- lift (batch_data companies) ;;
     let df := batch_data in
     log INFO (MsgFetchedCompanies (List.length df)) ;;
     ret (Some df))
    [ (Exception, fun e => log ERROR (MsgErrorFetchingCompanies e) ;; ret None) ].

(** A decoded value as a roster field: a text or [None]. *)
Definition as_text (j : json) : option (option string) :=
  match j with
  | JNull => Some None
  | JStr s => Some (Some s)
  | _ => None
  end.

(** A row whose three values are texts or [None], as a [Company]. *)
Definition typed_row (r : RawCompany) : option Company :=
  match as_text (raw_Planhat_ID r), as_text (raw_Org_ID r),
        as_text (raw_Company_Name r) with
  | Some i, Some o, Some n => Some (mkcompany i o n)
  | _, _, _ => None
  end.

Fixpoint typed_rows (rows : list RawCompany) : option (list Company) :=
  match rows with
  | [] => Some []
  | r :: rest =>
      match typed_row r, typed_rows rest with
      | Some c, Some cs => Some (c :: cs)
      | _, _ => None
      end
  end.

(** The body of a response as the roster it decodes to. *)
Definition typed_body (body : result json) : option (result (list Company)) :=
  match body with
  | Raise e => Some (Raise e)
  | Ret companies =>
      match batch_data companies with
      | Raise e => Some (Raise e)
      | Ret rows =>
          match typed_rows rows with
          | Some cs => Some (Ret cs)
          | None => None
          end
      end
  end.

Definition typed_answer (answer : http_answer (result json))
  : option (http_answer (result (list Company))) :=
  match answer with
  | NoAnswer detail => Some (NoAnswer detail)
  | Answer status_code body =>
      match typed_body body with
      | Some b => Some (Answer status_code b)
      | None => None
      end
  end.

(** A company as the comprehension can read it: a dict whose [custom], when
    it has one, is a dict. *)
Definition readable (c : json) : Prop :=
  exists fields,
    c = JObj fields
    /\ forall v, assoc "custom" fields = Some v -> exists inner, v = JObj inner.

(** The value of a key, [None] when the key is missing. *)
Definition field (key : string) (fields : list (string * json)) : json :=
  match assoc key fields with
  | Some v => v
  | None => JNull
  end.

(** The row of a readable company. *)
Definition row_of (c : json) : RawCompany :=
  match c with
  | JObj fields =>
      mkraw (field "_id" fields)
            (match assoc "custom" fields with
             | Some (JObj inner) => field "Org ID" inner
             | _ => JNull
             end)
            (field "name" fields)
  | _ => mkraw JNull JNull JNull
  end.

(* ================================================================= *)
(** ** More notions for the properties *)

Definition is_get (ev : event) : bool :=
  match ev with HttpGet _ _ _ _ => true | _ => false end.

Definition is_sleep (ev : event) : bool :=
  match ev with Sleep _ => true | _ => false end.

Definition is_download (ev : event) : bool :=
  match ev with StorageDownload _ => true | _ => false end.

(** The companies of a roster that have an org id. *)
Definition with_org_id (roster : list Company) : list Company :=
  filter (fun c => truthy (Org_ID c)) roster.

(** The status is one [raise_for_status] raises for. *)
Definition error_status (status_code : Z) : Prop := 400 <= status_code < 600.


(** The sample world with another answer to the POST requests. *)
Definition with_posts (w : World)
    (answers : nat -> string -> list DataPoint -> http_answer unit) : World :=
  {| getenv := getenv w;
     json_loads := json_loads w;
     utcnow := utcnow w;
     get_bucket := get_bucket w;
     read_csv := read_csv w;
     get_companies := get_companies w;
     post_dimensiondata := answers |}.

(** The sample world with another answer of the roster endpoint. *)
Definition with_companies (w : World)
    (answer : http_answer (result (list Company))) : World :=
  {| getenv := getenv w;
     json_loads := json_loads w;
     utcnow := utcnow w;
     get_bucket := get_bucket w;
     read_csv := read_csv w;
     get_companies := fun _ _ => answer;
     post_dimensiondata := post_dimensiondata w |}.

(** The sample world with another decoder of the credentials. *)
Definition with_json_loads (w : World) (loads : string -> result json) : World :=
  {| getenv := getenv w;
     json_loads := loads;
     utcnow := utcnow w;
     get_bucket := get_bucket w;
     read_csv := read_csv w;
     get_companies := get_companies w;
     post_dimensiondata := post_dimensiondata w |}.

Definition sample_response : json :=
  JArr [ JObj [ ("_id", JStr "p1"); ("name", JStr "A");
                ("custom", JObj [("Org ID", JStr "orga")]) ];
         JObj [ ("_id", JStr "p2"); ("name", JStr "B") ];
         JObj [ ("_id", JStr "p3"); ("name", JStr "Provenir");
                ("custom", JObj [("Org ID", JStr "a29883b2-997e-4b44-8bf5-a0a95bbdf639")]) ] ].

(** The event is no HTTP request. *)
Definition no_http (ev : event) : bool := negb (is_get ev || is_post ev).

(** The iterator that gives the objects of a list and then goes on as
    [rest]. *)
Definition listing (pre : list Blob) (rest : blob_iterator) : blob_iterator :=
  fold_right IterNext rest pre.

(** The companies answer with one company whose [custom] is [null]. *)
Definition null_custom_response : json :=
  JArr [ JObj [ ("_id", JStr "p1"); ("custom", JNull) ] ].

(** The body of the publish request. *)
Definition data_points (org_id date_str : string) (cumulative_cpus forecasted_cpus : Q)
  : list DataPoint :=
  [ mkpoint "Cumulative Billable CPUs" cumulative_cpus org_id "Asset" date_str;
    mkpoint "Forecasted Billable CPUs" forecasted_cpus org_id "Asset" date_str ].

(** The line the publisher logs for what its request met. *)
Definition publish_log (company_name : option string) (answer : http_answer unit)
  : event :=
  match answer with
  | NoAnswer detail =>
      Log ERROR (MsgErrorUpdatingPlanhat company_name (mkexn ConnectionError detail))
  | Answer status_code _ =>
      if (400 <=? status_code) && (status_code <? 600)
      then Log ERROR (MsgErrorUpdatingPlanhat company_name
                        (mkexn HTTPError "error status"))
      else Log INFO (MsgPlanhatUpdated company_name)
  end.

(** Two runs of a piece of code that return the same, send the same to the
    outside and count the same requests (their log lines may differ). *)
Definition same_outside {A} (x y : result A * list event * nat) : Prop :=
  fst (fst x) = fst (fst y)
  /\ effects (snd (fst x)) = effects (snd (fst y))
  /\ snd x = snd y.

(* ================================================================= *)
(** * Properties *)

(** ** Characters and strings *)

Ltac each_char c := destruct c as [[] [] [] [] [] [] [] []].

Lemma isspace_lower_char c : PyStr.isspace (PyStr.lower_char c) = PyStr.isspace c.
Proof. each_char c; reflexivity. Qed.

Lemma lower_char_idem c : PyStr.lower_char (PyStr.lower_char c) = PyStr.lower_char c.
Proof. each_char c; reflexivity. Qed.

Lemma lower_char_upper c :
  PyStr.isupper c = true -> PyStr.lower_char c = ascii_of_N (N_of_ascii c + 32).
Proof. unfold PyStr.lower_char. intros ->. reflexivity. Qed.

Lemma lower_char_shifted c :
  PyStr.isupper c = true ->
  PyStr.lower_char (ascii_of_N (N_of_ascii c + 32)) = ascii_of_N (N_of_ascii c + 32).
Proof. intros H. rewrite <- (lower_char_upper c H). apply lower_char_idem. Qed.

Lemma case_variant_lower a b :
  case_variant a b -> PyStr.lower_char a = PyStr.lower_char b.
Proof.
  intros [c | c H | c H].
  - reflexivity.
  - rewrite (lower_char_shifted c H). apply lower_char_upper, H.
  - rewrite (lower_char_shifted c H). symmetry. apply lower_char_upper, H.
Qed.

Lemma case_variant_isspace a b :
  case_variant a b -> PyStr.isspace a = PyStr.isspace b.
Proof.
  intros H. apply case_variant_lower in H.
  rewrite <- (isspace_lower_char a), <- (isspace_lower_char b), H. reflexivity.
Qed.

Lemma case_alike_lower s t : case_alike s t -> PyStr.lower s = PyStr.lower t.
Proof.
  induction 1 as [| a b s t Hab _ IH]; simpl.
  - reflexivity.
  - rewrite (case_variant_lower a b Hab), IH. reflexivity.
Qed.

Lemma case_alike_lstrip s t :
  case_alike s t -> case_alike (PyStr.lstrip s) (PyStr.lstrip t).
Proof.
  induction 1 as [| a b s t Hab Hst IH]; simpl.
  - constructor.
  - rewrite <- (case_variant_isspace a b Hab).
    destruct (PyStr.isspace a); [exact IH | constructor; assumption].
Qed.

Lemma case_alike_is_empty s t :
  case_alike s t -> PyStr.is_empty s = PyStr.is_empty t.
Proof. destruct 1; reflexivity. Qed.

Lemma case_alike_rstrip s t :
  case_alike s t -> case_alike (PyStr.rstrip s) (PyStr.rstrip t).
Proof.
  induction 1 as [| a b s t Hab Hst IH]; simpl.
  - constructor.
  - rewrite <- (case_variant_isspace a b Hab), <- (case_alike_is_empty _ _ IH).
    destruct (PyStr.isspace a && PyStr.is_empty (PyStr.rstrip s));
      constructor; assumption.
Qed.

Lemma lstrip_blank l : PyStr.blank l = true -> PyStr.lstrip l = EmptyString.
Proof.
  induction l as [| c l IH]; simpl; [reflexivity |].
  intros H. apply andb_prop in H as [Hc Hl]. rewrite Hc. auto.
Qed.

Lemma rstrip_blank r : PyStr.blank r = true -> PyStr.rstrip r = EmptyString.
Proof.
  induction r as [| c r IH]; simpl; [reflexivity |].
  intros H. apply andb_prop in H as [Hc Hr]. rewrite Hc, (IH Hr). reflexivity.
Qed.

Lemma lstrip_app_blank l s :
  PyStr.blank l = true -> PyStr.lstrip (l ++ s) = PyStr.lstrip s.
Proof.
  induction l as [| c l IH]; simpl; [reflexivity |].
  intros H. apply andb_prop in H as [Hc Hl]. rewrite Hc. auto.
Qed.

Lemma rstrip_app_blank s r :
  PyStr.blank r = true -> PyStr.rstrip (s ++ r) = PyStr.rstrip s.
Proof.
  intros Hr. induction s as [| c s IH]; simpl.
  - apply rstrip_blank, Hr.
  - rewrite IH. reflexivity.
Qed.

Lemma strip_app_blank s r :
  PyStr.blank r = true -> PyStr.strip (s ++ r) = PyStr.strip s.
Proof.
  intros Hr. unfold PyStr.strip. induction s as [| c s IH]; simpl.
  - rewrite (lstrip_blank r Hr). reflexivity.
  - destruct (PyStr.isspace c); [exact IH |].
    change (String c (s ++ r)) with (String c s ++ r).
    apply rstrip_app_blank, Hr.
Qed.

Lemma strip_padded l c r :
  PyStr.blank l = true -> PyStr.blank r = true ->
  PyStr.strip (l ++ c ++ r) = PyStr.strip c.
Proof.
  intros Hl Hr. unfold PyStr.strip at 1. rewrite (lstrip_app_blank l _ Hl).
  apply strip_app_blank, Hr.
Qed.

(** Ids that differ in case and outer white space have one normal form. *)
Lemma normalize_variant s t : id_variant s t -> normalize s = normalize t.
Proof.
  intros [l1 c1 r1 l2 c2 r2 -> -> Hl1 Hr1 Hl2 Hr2 Hc]. unfold normalize.
  rewrite (strip_padded l1 c1 r1 Hl1 Hr1), (strip_padded l2 c2 r2 Hl2 Hr2).
  apply case_alike_lower. unfold PyStr.strip.
  apply case_alike_rstrip, case_alike_lstrip, Hc.
Qed.

Lemma is_empty_lower s : PyStr.is_empty (PyStr.lower s) = PyStr.is_empty s.
Proof. destruct s; reflexivity. Qed.

Lemma lstrip_lower s : PyStr.lstrip (PyStr.lower s) = PyStr.lower (PyStr.lstrip s).
Proof.
  induction s as [| c s IH]; simpl; [reflexivity |].
  rewrite isspace_lower_char. destruct (PyStr.isspace c); [exact IH | reflexivity].
Qed.

Lemma rstrip_lower s : PyStr.rstrip (PyStr.lower s) = PyStr.lower (PyStr.rstrip s).
Proof.
  induction s as [| c s IH]; simpl; [reflexivity |].
  rewrite isspace_lower_char, IH, is_empty_lower.
  destruct (PyStr.isspace c && PyStr.is_empty (PyStr.rstrip s)); reflexivity.
Qed.

Lemma lower_idem s : PyStr.lower (PyStr.lower s) = PyStr.lower s.
Proof.
  induction s as [| c s IH]; simpl; [reflexivity |].
  rewrite lower_char_idem, IH. reflexivity.
Qed.

Lemma rstrip_idem s : PyStr.rstrip (PyStr.rstrip s) = PyStr.rstrip s.
Proof.
  induction s as [| c s IH]; simpl; [reflexivity |].
  destruct (PyStr.isspace c && PyStr.is_empty (PyStr.rstrip s)) eqn:E; simpl.
  - reflexivity.
  - rewrite IH, E. reflexivity.
Qed.

(** After [lstrip] a string is empty or starts with a character that is
    no white space, and [rstrip] keeps that character. *)
Lemma lstrip_rstrip_lstrip s :
  PyStr.lstrip (PyStr.rstrip (PyStr.lstrip s)) = PyStr.rstrip (PyStr.lstrip s).
Proof.
  induction s as [| c s IH]; simpl; [reflexivity |].
  destruct (PyStr.isspace c) eqn:E; [exact IH |].
  simpl. rewrite E. simpl. rewrite E. reflexivity.
Qed.

Lemma strip_idem s : PyStr.strip (PyStr.strip s) = PyStr.strip s.
Proof.
  unfold PyStr.strip. rewrite lstrip_rstrip_lstrip. apply rstrip_idem.
Qed.

Lemma strip_lower s : PyStr.strip (PyStr.lower s) = PyStr.lower (PyStr.strip s).
Proof. unfold PyStr.strip. rewrite lstrip_lower. apply rstrip_lower. Qed.

Lemma normalize_idem s : normalize (normalize s) = normalize s.
Proof.
  unfold normalize. rewrite strip_lower, lower_idem, strip_idem. reflexivity.
Qed.

Lemma append_empty s : s ++ EmptyString = s.
Proof. induction s as [| c s IH]; simpl; [| rewrite IH]; reflexivity. Qed.

Lemma case_alike_refl s : case_alike s s.
Proof. induction s; constructor; [apply cv_same | assumption]. Qed.

Lemma id_variant_refl s : id_variant s s.
Proof.
  apply (idv s s EmptyString s EmptyString EmptyString s EmptyString);
    try reflexivity; try (simpl; rewrite append_empty; reflexivity).
  apply case_alike_refl.
Qed.

(** ** Numbers *)

Lemma rint_comp (x y : Q) : (x == y)%Q -> rint x = rint y.
Proof.
  intros H. unfold rint.
  rewrite <- (Qfloor_comp x y H).
  assert (E : (x - inject_Z (Qfloor x) == y - inject_Z (Qfloor x))%Q)
    by (unfold Qminus; apply Qplus_comp; [exact H | reflexivity]).
  rewrite (Qcompare_comp _ _ E (1 # 2) (1 # 2) (Qeq_refl _)). reflexivity.
Qed.

Lemma round2_comp (x y : Q) : (x == y)%Q -> round2 x = round2 y.
Proof.
  intros H. unfold round2. rewrite (rint_comp (x * 100) (y * 100)); [reflexivity |].
  apply Qmult_comp; [exact H | reflexivity].
Qed.

(** [rint] gives an integer nearest to its argument. *)
Lemma rint_nearest (x : Q) :
  (inject_Z (rint x) - (1 # 2) <= x <= inject_Z (rint x) + (1 # 2))%Q.
Proof.
  unfold rint.
  pose proof (Qfloor_le x) as Hlo. pose proof (Qlt_floor x) as Hhi.
  set (f := Qfloor x) in *.
  rewrite inject_Z_plus in Hhi. change (inject_Z 1) with 1%Q in Hhi.
  destruct (Qcompare (x - inject_Z f) (1 # 2)) eqn:E.
  - apply Qeq_alt in E.
    destruct (Z.even f); [| rewrite inject_Z_plus; change (inject_Z 1) with 1%Q]; lra.
  - apply Qlt_alt in E. lra.
  - apply Qgt_alt in E. rewrite inject_Z_plus. change (inject_Z 1) with 1%Q. lra.
Qed.

(** [round2] gives a number of hundredths within half a hundredth of its
    argument. *)
Lemma round2_nearest (x : Q) :
  (round2 x - (1 # 200) <= x <= round2 x + (1 # 200))%Q.
Proof.
  unfold round2. pose proof (rint_nearest (x * 100)) as H.
  set (n := inject_Z (rint (x * 100))) in *.
  assert (E : (n / 100 == n * (1 # 100))%Q) by reflexivity.
  rewrite E. lra.
Qed.

Lemma sum_fold_right (col : list cell) (a : Q) :
  (fold_left (fun acc c => acc + Pandas.fillna 0 (Pandas.to_numeric c)) col a
   == a + fold_right (fun c acc => total_or_zero c + acc) 0 col)%Q.
Proof.
  revert a. induction col as [| c col IH]; intros a; simpl.
  - ring.
  - rewrite IH. destruct c; simpl; ring.
Qed.

(** ** The calculator *)

Lemma mem_In x xs : PyStr.mem x xs = true <-> In x xs.
Proof.
  unfold PyStr.mem. rewrite existsb_exists. split.
  - intros [y [Hy E]]. apply String.eqb_eq in E. subst. exact Hy.
  - intros H. exists x. split; [exact H | apply String.eqb_refl].
Qed.

(** The table [calculate_metrics] leaves behind. *)
Lemma calculate_metrics_table df org_ids d :
  fst (calculate_metrics df org_ids d) = cleaned df.
Proof.
  unfold calculate_metrics, cleaned. simpl. rewrite map_map.
  apply map_ext. intros r. simpl. unfold normalize.
  destruct (Total r); reflexivity.
Qed.

(** The sum [calculate_metrics] forms is the sum of the specification. *)
Lemma filtered_sum df org_ids :
  (Pandas.sum
     (map Total
        (filter (fun r => PyStr.mem (OrganizationID r) (map normalize org_ids))
                (cleaned df)))
   == cumulative df org_ids)%Q.
Proof.
  unfold Pandas.sum. rewrite sum_fold_right.
  induction df as [| r df IH]; simpl.
  - ring.
  - destruct (belongs_dec org_ids r) as [Hin | Hout].
    + apply mem_In in Hin. rewrite Hin. simpl.
      rewrite <- IH. destruct (Total r); simpl; ring.
    + destruct (PyStr.mem _ _) eqn:E.
      * exfalso. apply Hout. apply mem_In. exact E.
      * rewrite <- IH. ring.
Qed.

Lemma isleap_leap_year y : Calendar.isleap y = leap_year y.
Proof.
  unfold Calendar.isleap, leap_year.
  destruct (Z.eqb_spec (y mod 400) 0) as [H400 | H400];
    destruct (Z.eqb_spec (y mod 100) 0) as [H100 | H100];
    destruct (Z.eqb_spec (y mod 4) 0) as [H4 | H4];
    try reflexivity; exfalso; revert H400 H100 H4;
    Z.div_mod_to_equations; lia.
Qed.

Lemma monthrange_days_in_month y m :
  1 <= m <= 12 -> Calendar.monthrange_days y m = days_in_month y m.
Proof.
  intros H. unfold Calendar.monthrange_days. rewrite isleap_leap_year.
  assert (C : m = 1 \/ m = 2 \/ m = 3 \/ m = 4 \/ m = 5 \/ m = 6 \/ m = 7 \/
              m = 8 \/ m = 9 \/ m = 10 \/ m = 11 \/ m = 12) by lia.
  repeat (destruct C as [-> | C]); try subst m; simpl;
    try reflexivity; destruct (leap_year y); reflexivity.
Qed.

Lemma calculate_metrics_result df org_ids d :
  0 < day d -> 1 <= month d <= 12 ->
  snd (calculate_metrics df org_ids d) = metrics df org_ids d.
Proof.
  intros Hd Hm. unfold calculate_metrics, metrics. cbv zeta. simpl snd.
  apply Z.ltb_lt in Hd. rewrite Hd.
  rewrite (monthrange_days_in_month _ _ Hm).
  pose proof (calculate_metrics_table df org_ids d) as T.
  unfold calculate_metrics in T. simpl in T. rewrite T.
  change (map (fun org_id => PyStr.lower (PyStr.strip org_id)) org_ids)
    with (map normalize org_ids).
  pose proof (filtered_sum df org_ids) as S.
  f_equal; apply round2_comp; rewrite S; reflexivity.
Qed.

Lemma cleaned_idem df : cleaned (cleaned df) = cleaned df.
Proof.
  unfold cleaned. rewrite map_map. apply map_ext. intros r. simpl.
  rewrite normalize_idem. reflexivity.
Qed.

(** The pair [calculate_metrics] computes depends on the table only through
    its cleaned form. *)
Lemma calculate_metrics_cleaned df df' org_ids d :
  cleaned df = cleaned df' ->
  snd (calculate_metrics df org_ids d) = snd (calculate_metrics df' org_ids d).
Proof.
  intros H.
  pose proof (calculate_metrics_table df org_ids d) as T.
  pose proof (calculate_metrics_table df' org_ids d) as T'.
  unfold calculate_metrics in *. simpl in *. rewrite T, T', H. reflexivity.
Qed.

(** ** Dates *)

Lemma valid_dateb_true d : valid_date d -> valid_dateb d = true.
Proof.
  unfold valid_date, valid_dateb. intros [[? ?] [[? ?] [? ?]]].
  repeat (apply andb_true_intro; split); apply Z.leb_le; assumption.
Qed.

Lemma valid_dateb_sound d : valid_dateb d = true -> valid_date d.
Proof.
  unfold valid_date, valid_dateb. intros H.
  repeat (apply andb_prop in H as [H ?]).
  repeat split; apply Z.leb_le; assumption.
Qed.

Lemma monthrange_days_lower y m : 1 <= m <= 12 -> 28 <= Calendar.monthrange_days y m.
Proof.
  intros H. unfold Calendar.monthrange_days.
  assert (C : m = 1 \/ m = 2 \/ m = 3 \/ m = 4 \/ m = 5 \/ m = 6 \/ m = 7 \/
              m = 8 \/ m = 9 \/ m = 10 \/ m = 11 \/ m = 12) by lia.
  repeat (destruct C as [-> | C]); try subst m; simpl;
    try lia; destruct (Calendar.isleap y); lia.
Qed.

Lemma monthrange_days_upper y m : Calendar.monthrange_days y m <= 31.
Proof.
  unfold Calendar.monthrange_days.
  assert (nth (Z.to_nat m) Calendar.mdays 0 <= 30
          \/ (nth (Z.to_nat m) Calendar.mdays 0 = 31 /\ (m =? 2) = false)) as [H | [H E]].
  { destruct (Z.to_nat m) as [| [| [| [| [| [| [| [| [| [| [| [| [| k]]]]]]]]]]]]] eqn:E;
      simpl; try (left; lia);
      try (right; split; [reflexivity | apply Z.eqb_neq; lia]).
    left. destruct k; simpl; lia. }
  - set (k := nth _ _ _) in *. destruct ((m =? 2) && Calendar.isleap y); lia.
  - rewrite E, H. simpl. lia.
Qed.

(** The day before a date, when there is one, is a date. *)
Lemma minus_one_day_valid d d' :
  valid_date d -> Datetime.minus_one_day d = Ret d' -> valid_date d'.
Proof.
  intros [[Hy1 Hy2] [[Hm1 Hm2] [Hd1 Hd2]]]. unfold Datetime.minus_one_day.
  destruct (Z.ltb_spec 1 (day d)) as [Hd | Hd].
  - intros E. injection E as <-. unfold valid_date. simpl. lia.
  - destruct (Z.ltb_spec 1 (month d)) as [Hm | Hm].
    + intros E. injection E as <-. unfold valid_date. simpl.
      pose proof (monthrange_days_lower (year d) (month d - 1)). lia.
    + destruct (Z.ltb_spec 1 (year d)) as [Hy | Hy]; [| discriminate].
      intros E. injection E as <-. unfold valid_date. simpl.
      change (Calendar.monthrange_days (year d - 1) 12) with 31. lia.
Qed.

Lemma digit_val_char n : Datetime.digit_val (Datetime.digit_char n) = Some (n mod 10).
Proof.
  unfold Datetime.digit_char.
  assert (C : n mod 10 = 0 \/ n mod 10 = 1 \/ n mod 10 = 2 \/ n mod 10 = 3 \/
              n mod 10 = 4 \/ n mod 10 = 5 \/ n mod 10 = 6 \/ n mod 10 = 7 \/
              n mod 10 = 8 \/ n mod 10 = 9)
    by (pose proof (Z.mod_pos_bound n 10); lia).
  repeat (destruct C as [-> | C]); try rewrite C; reflexivity.
Qed.

Lemma parse_month_pad2 m : 1 <= m <= 12 -> Datetime.parse_month (Datetime.pad2 m) = Some m.
Proof.
  intros H.
  assert (C : m = 1 \/ m = 2 \/ m = 3 \/ m = 4 \/ m = 5 \/ m = 6 \/ m = 7 \/
              m = 8 \/ m = 9 \/ m = 10 \/ m = 11 \/ m = 12) by lia.
  repeat (destruct C as [-> | C]); try subst m; reflexivity.
Qed.

Lemma parse_day_pad2 d : 1 <= d <= 31 -> Datetime.parse_day (Datetime.pad2 d) = Some d.
Proof.
  intros H.
  assert (C : (1 <= d <= 8) \/ (9 <= d <= 16) \/ (17 <= d <= 24) \/ (25 <= d <= 31))
    by lia.
  destruct C as [C | [C | [C | C]]].
  - assert (E : d = 1 \/ d = 2 \/ d = 3 \/ d = 4 \/ d = 5 \/ d = 6 \/ d = 7 \/ d = 8) by lia.
    repeat (destruct E as [-> | E]); try subst d; reflexivity.
  - assert (E : d = 9 \/ d = 10 \/ d = 11 \/ d = 12 \/ d = 13 \/ d = 14 \/ d = 15 \/ d = 16) by lia.
    repeat (destruct E as [-> | E]); try subst d; reflexivity.
  - assert (E : d = 17 \/ d = 18 \/ d = 19 \/ d = 20 \/ d = 21 \/ d = 22 \/ d = 23 \/ d = 24) by lia.
    repeat (destruct E as [-> | E]); try subst d; reflexivity.
  - assert (E : d = 25 \/ d = 26 \/ d = 27 \/ d = 28 \/ d = 29 \/ d = 30 \/ d = 31) by lia.
    repeat (destruct E as [-> | E]); try subst d; reflexivity.
Qed.

Lemma split_dash_pad2 m rest :
  1 <= m <= 12 ->
  Datetime.split_dash
    (String (Datetime.digit_char (m / 10))
       (String (Datetime.digit_char m) (String "-" rest)))
  = Some (Datetime.pad2 m, rest).
Proof.
  intros H.
  assert (C : m = 1 \/ m = 2 \/ m = 3 \/ m = 4 \/ m = 5 \/ m = 6 \/ m = 7 \/
              m = 8 \/ m = 9 \/ m = 10 \/ m = 11 \/ m = 12) by lia.
  repeat (destruct C as [-> | C]); try subst m; reflexivity.
Qed.

Lemma four_digits y :
  0 <= y <= 9999 ->
  1000 * ((y / 1000) mod 10) + 100 * ((y / 100) mod 10) + 10 * ((y / 10) mod 10)
  + y mod 10 = y.
Proof. intros H. Z.div_mod_to_equations. lia. Qed.

(** Parsing the text [strftime] writes gives the date back. *)
Lemma strptime_strftime d :
  valid_date d -> Datetime.strptime (Datetime.strftime d) = Ret d.
Proof.
  intros V. pose proof V as [[Hy1 Hy2] [[Hm1 Hm2] [Hd1 Hd2]]].
  pose proof (monthrange_days_upper (year d) (month d)) as Hu.
  unfold Datetime.strptime, Datetime.strftime, Datetime.pad4.
  unfold Datetime.pad2 at 1 2. simpl append.
  unfold Datetime.parse_ymd. rewrite !digit_val_char.
  change (Datetime.is_dash "-") with true. cbv iota.
  rewrite split_dash_pad2 by lia.
  rewrite parse_month_pad2 by lia. rewrite parse_day_pad2 by lia.
  rewrite four_digits by lia.
  destruct d as [y m dd]. simpl in *. rewrite (valid_dateb_true _ V). reflexivity.
Qed.

(** ** The monad *)

Lemma bind_assoc {A B C} (m : M A) (f : A -> M B) (g : B -> M C) n :
  bind (bind m f) g n = bind m (fun a => bind (f a) g) n.
Proof.
  unfold bind. destruct (m n) as [[[a | e] t1] n1]; [| reflexivity].
  destruct (f a n1) as [[[b | e] t2] n2]; [| reflexivity].
  destruct (g b n2) as [[r t3] n3]. rewrite app_assoc. reflexivity.
Qed.

Lemma bind_ext {A B} (m : M A) (f g : A -> M B) n :
  (forall a k, f a k = g a k) -> bind m f n = bind m g n.
Proof.
  intros H. unfold bind. destruct (m n) as [[[a | e] t1] n1]; [| reflexivity].
  rewrite H. reflexivity.
Qed.

Lemma bind_cong {A B} (m m' : M A) (f g : A -> M B) n :
  (forall k, m k = m' k) -> (forall a k, f a k = g a k) ->
  bind m f n = bind m' g n.
Proof.
  intros Hm Hf. unfold bind. rewrite Hm.
  destruct (m' n) as [[[a | e] t1] n1]; [| reflexivity].
  rewrite Hf. reflexivity.
Qed.

Lemma sends_nothing_ret {A} (a : A) : sends_nothing (ret a).
Proof. intros n. reflexivity. Qed.

Lemma sends_nothing_raise {A} (e : exn) : sends_nothing (@raise A e).
Proof. intros n. reflexivity. Qed.

Lemma sends_nothing_lift {A} (r : result A) : sends_nothing (lift r).
Proof. intros n. reflexivity. Qed.

Lemma sends_nothing_emit ev : sends_nothing (emit ev).
Proof. intros n. reflexivity. Qed.

Lemma sends_nothing_log lvl msg : sends_nothing (log lvl msg).
Proof. intros n. reflexivity. Qed.

Lemma sends_nothing_bind {A B} (m : M A) (f : A -> M B) :
  sends_nothing m -> (forall a, sends_nothing (f a)) -> sends_nothing (bind m f).
Proof.
  intros Hm Hf n. unfold run, bind. rewrite (Hm n), (Hm O).
  destruct (fst (run m)) as [a | e]; [| reflexivity].
  rewrite (Hf a n), (Hf a O). reflexivity.
Qed.

Lemma sends_nothing_handler {A} e (clauses : list (exc_class * (exn -> M A))) h :
  Forall (fun c => forall e', sends_nothing (snd c e')) clauses ->
  find_handler e clauses = Some h -> sends_nothing h.
Proof.
  induction 1 as [| [k hk] rest Hk _ IH]; simpl; [discriminate |].
  destruct (issubclass (exn_class e) k).
  - intros E. injection E as <-. apply Hk.
  - exact IH.
Qed.

Lemma sends_nothing_try {A} (body : M A) clauses :
  sends_nothing body ->
  Forall (fun c => forall e, sends_nothing (snd c e)) clauses ->
  sends_nothing (try_except body clauses).
Proof.
  intros Hb Hc n. unfold run, try_except. rewrite (Hb n), (Hb O).
  destruct (fst (run body)) as [a | e]; [reflexivity |].
  destruct (find_handler e clauses) as [h |] eqn:E; [| reflexivity].
  pose proof (sends_nothing_handler e clauses h Hc E) as Hh.
  rewrite (Hh n), (Hh O). reflexivity.
Qed.

Ltac solve_sends_nothing :=
  repeat first
    [ apply sends_nothing_ret | apply sends_nothing_raise | apply sends_nothing_lift
    | apply sends_nothing_emit | apply sends_nothing_log
    | apply sends_nothing_bind; [| intros ?]
    | apply sends_nothing_try
    | apply Forall_cons; [intros ?; simpl |] | apply Forall_nil ].

(** Every exception class is a subclass of [Exception]. *)
Lemma issubclass_Exception c : issubclass c Exception = true.
Proof. destruct c; reflexivity. Qed.

(** ** The downloader *)

Lemma first_csv_sends_nothing w target_date blobs :
  sends_nothing (first_csv_for_date w target_date blobs).
Proof.
  induction blobs as [| blob rest IH | e]; simpl.
  - solve_sends_nothing.
  - destruct (_ && _); [solve_sends_nothing | exact IH].
  - solve_sends_nothing.
Qed.

Lemma download_sends_nothing w bucket_name info target_date :
  sends_nothing (download_and_process_csv_for_date w bucket_name info target_date).
Proof.
  unfold download_and_process_csv_for_date. solve_sends_nothing.
  apply first_csv_sends_nothing.
Qed.

Lemma fetch_sends_nothing w api_token limit :
  sends_nothing (fetch_planhat_companies w api_token limit).
Proof.
  unfold fetch_planhat_companies. solve_sends_nothing.
  - unfold http_result. destruct (get_companies w api_token limit); solve_sends_nothing.
  - unfold raise_for_status. destruct (_ && _); solve_sends_nothing.
Qed.

Lemma startswith_spec p s :
  PyStr.startswith p s = true <-> exists post, s = p ++ post.
Proof.
  revert s. induction p as [| a p IH]; intros s; simpl.
  - split; [intros _; exists s; reflexivity | reflexivity].
  - destruct s as [| b s].
    + split; [discriminate | intros [post E]; discriminate].
    + rewrite andb_true_iff, Ascii.eqb_eq, IH. split.
      * intros [-> [post ->]]. exists post. reflexivity.
      * intros [post E]. injection E as -> ->. split; [reflexivity | eauto].
Qed.

Lemma contains_spec p s :
  PyStr.contains p s = true <-> exists pre post, s = pre ++ p ++ post.
Proof.
  induction s as [| c s IH]; simpl; rewrite orb_true_iff, startswith_spec.
  - split.
    + intros [[post E] | H]; [| discriminate]. exists EmptyString, post. exact E.
    + intros [pre [post E]]. left. destruct pre as [| a pre]; [| discriminate].
      exists post. exact E.
  - rewrite IH. split.
    + intros [[post E] | [pre [post E]]].
      * exists EmptyString, post. exact E.
      * exists (String c pre), post. simpl. rewrite E. reflexivity.
    + intros [pre [post E]]. destruct pre as [| a pre]; simpl in E.
      * left. exists post. exact E.
      * right. injection E as _ E. exists pre, post. exact E.
Qed.

Lemma endswith_spec p s :
  PyStr.endswith p s = true <-> exists pre, s = pre ++ p.
Proof.
  induction s as [| c s IH]; simpl; rewrite orb_true_iff, String.eqb_eq.
  - split.
    + intros [-> | H]; [| discriminate]. exists EmptyString. reflexivity.
    + intros [pre E]. left. destruct pre; simpl in E; [auto | discriminate].
  - rewrite IH. split.
    + intros [-> | [pre ->]].
      * exists EmptyString. reflexivity.
      * exists (String c pre). reflexivity.
    + intros [pre E]. destruct pre as [| a pre]; simpl in E.
      * left. symmetry. exact E.
      * right. injection E as _ E. exists pre. exact E.
Qed.

Lemma blob_test_spec target_date b :
  PyStr.contains target_date (blob_name b) && PyStr.endswith ".csv" (blob_name b) = true
  <-> has_date target_date b /\ is_csv b.
Proof.
  rewrite andb_true_iff, contains_spec, endswith_spec. reflexivity.
Qed.

(** With no object of the right name the loop returns [None], or raises
    what the iterator raises. *)
Lemma first_csv_none w target_date blobs n :
  (forall b, In b (listed blobs) -> ~ (has_date target_date b /\ is_csv b)) ->
  first_csv_for_date w target_date blobs n
  = (Ret None, [Log WARNING (MsgNoFileFound target_date)], n)
  \/ exists e, first_csv_for_date w target_date blobs n = (Raise e, [], n).
Proof.
  induction blobs as [| b rest IH | e]; intros H; simpl.
  - left. reflexivity.
  - destruct (_ && _) eqn:E.
    + exfalso. apply (H b (or_introl eq_refl)). apply blob_test_spec. exact E.
    + apply IH. intros b' Hb'. apply H. right. exact Hb'.
  - right. exists e. reflexivity.
Qed.

(** When the loop returns a table, an object of the right name was
    downloaded and parsed. *)
Lemma first_csv_some w target_date blobs n df t n' :
  first_csv_for_date w target_date blobs n = (Ret (Some df), t, n') ->
  exists b s, In b (listed blobs) /\ has_date target_date b /\ is_csv b /\
              download_as_string b = Ret s /\ read_csv w s = Ret df.
Proof.
  induction blobs as [| b rest IH | e]; simpl.
  - discriminate.
  - destruct (_ && _) eqn:E.
    + apply blob_test_spec in E as [Hd Hc].
      unfold bind, log, emit, lift, ret.
      destruct (download_as_string b) as [s | e] eqn:Es; [| discriminate].
      destruct (read_csv w s) as [df' | e] eqn:Ed; [| discriminate].
      intros H. injection H as <- _ _. exists b, s. auto.
    + intros H. destruct (IH H) as [b' [s [Hin H']]]. exists b', s. auto.
  - discriminate.
Qed.

(** Each handler of the downloader returns [None]. *)
Lemma download_handlers e bucket_name :
  exists msg,
    find_handler e
      [ (NotFound, fun e => log ERROR (MsgBucketDoesNotExist bucket_name e) ;; ret None);
        (Forbidden, fun e => log ERROR (MsgAccessForbidden bucket_name e) ;; ret None);
        (GoogleAPIError, fun e => log ERROR (MsgGoogleAPIError e) ;; ret None);
        (Exception, fun e => log ERROR (MsgUnexpectedError e) ;; ret (@None DataFrame)) ]
    = Some (log ERROR msg ;; ret None).
Proof.
  simpl. destruct (issubclass (exn_class e) NotFound); [eauto |].
  destruct (issubclass (exn_class e) Forbidden); [eauto |].
  destruct (issubclass (exn_class e) GoogleAPIError); [eauto |].
  rewrite issubclass_Exception. eauto.
Qed.

Ltac name_try body clauses :=
  match goal with
  | |- context [try_except ?b ?c] => set (body := b); set (clauses := c)
  end.

(** The downloader returns, whatever its collaborators do. *)
Lemma download_returns w bucket_name info target_date n :
  exists v t,
    download_and_process_csv_for_date w bucket_name info target_date n = (Ret v, t, n).
Proof.
  rewrite (download_sends_nothing w bucket_name info target_date n).
  unfold run, download_and_process_csv_for_date. name_try body clauses.
  unfold try_except. destruct (body O) as [[[v | e] t1] n1].
  - simpl. eauto.
  - subst clauses. destruct (download_handlers e bucket_name) as [msg ->].
    simpl. eauto.
Qed.

(** A raised exception in the body of the downloader becomes [None]. *)
Lemma download_bucket_error w bucket_name info target_date e :
  get_bucket w info bucket_name = Raise e ->
  fst (run (download_and_process_csv_for_date w bucket_name info target_date)) = Ret None.
Proof.
  intros H. unfold run, download_and_process_csv_for_date. name_try body clauses.
  unfold try_except.
  assert (E : body O = (Raise e, [StorageGetBucket bucket_name], O))
    by (subst body; unfold bind, lift, emit; rewrite H; reflexivity).
  rewrite E. subst clauses.
  destruct (download_handlers e bucket_name) as [msg ->]. reflexivity.
Qed.

Lemma download_no_file w bucket_name info target_date blobs :
  get_bucket w info bucket_name = Ret blobs ->
  (forall b, In b (listed blobs) -> ~ (has_date target_date b /\ is_csv b)) ->
  fst (run (download_and_process_csv_for_date w bucket_name info target_date)) = Ret None.
Proof.
  intros H Hno. unfold run, download_and_process_csv_for_date. name_try body clauses.
  unfold try_except.
  assert (E : (exists t, body O = (Ret None, t, O))
              \/ (exists e t, body O = (Raise e, t, O))).
  { subst body. unfold bind, lift, emit, log. rewrite H. unfold emit.
    destruct (first_csv_none w target_date blobs O Hno) as [-> | [e ->]]; eauto. }
  destruct E as [[t ->] | [e [t ->]]]; [reflexivity |].
  subst clauses. destruct (download_handlers e bucket_name) as [msg ->]. reflexivity.
Qed.

Lemma download_some w bucket_name info target_date df :
  fst (run (download_and_process_csv_for_date w bucket_name info target_date))
  = Ret (Some df) ->
  exists blobs b s,
    get_bucket w info bucket_name = Ret blobs /\ In b (listed blobs) /\
    has_date target_date b /\ is_csv b /\
    download_as_string b = Ret s /\ read_csv w s = Ret df.
Proof.
  unfold run, download_and_process_csv_for_date. name_try body clauses.
  unfold try_except. destruct (body O) as [[[v | e] t] n'] eqn:E.
  - simpl. intros H. injection H as ->. subst body.
    unfold bind, lift, emit, log in E.
    destruct (get_bucket w info bucket_name) as [blobs | e] eqn:Eb; [| discriminate].
    unfold emit in E.
    destruct (first_csv_for_date w target_date blobs O) as [[r t'] n''] eqn:Ef.
    injection E as -> _ _.
    destruct (first_csv_some _ _ _ _ _ _ _ Ef) as [b [s H]]. exists blobs, b, s. auto.
  - subst clauses. destruct (download_handlers e bucket_name) as [msg ->].
    simpl. discriminate.
Qed.

(** ** The publisher and the loop *)

(** With a date text that [strftime] wrote, the publisher sends its one
    request and returns, whatever the answer is. *)
Lemma update_planhat_run w api_token company_id org_id d cum fc company_name n :
  valid_date d ->
  exists t,
    update_planhat w api_token company_id org_id (Datetime.strftime d) cum fc
                   company_name n = (Ret tt, t, S n)
    /\ effects t = [publish_request api_token (Datetime.strftime d) org_id (cum, fc)].
Proof.
  intros V. unfold update_planhat.
  unfold bind at 1, lift. rewrite (strptime_strftime d V).
  unfold publish_request. simpl fst. simpl snd.
  set (data := [mkpoint _ cum _ _ _; _]).
  unfold try_except, http_post, http_result, raise_for_status, log.
  unfold bind, emit, raise, ret.
  destruct (post_dimensiondata w n dimensiondata_url data) as [detail | code []].
  - simpl. eexists. split; reflexivity.
  - cbv beta iota zeta. cbn [fst snd].
    match goal with |- context [if ?c then _ else _] => destruct c end;
      simpl; eexists; split; reflexivity.
Qed.

Lemma find_matching_set_find o sets :
  find_matching_set o sets = find (fun alias_set => PyStr.mem o alias_set) sets.
Proof.
  induction sets as [| A sets IH]; simpl; [reflexivity |].
  destruct (PyStr.mem o A); [reflexivity | exact IH].
Qed.

Lemma effective_ids_code o :
  (if set_truthy (find_matching_set o org_id_sets)
   then match find_matching_set o org_id_sets with Some x => x | None => [] end
   else [o]) = effective_ids o.
Proof.
  unfold effective_ids. rewrite find_matching_set_find.
  destruct (find _ org_id_sets) as [A |] eqn:E; [| reflexivity].
  apply find_some in E as [_ Hm]. destruct A; [discriminate | reflexivity].
Qed.

(** A roster entry with no org id: one warning, nothing else. *)
Lemma process_company_without_id w api_token date_str d df c n :
  truthy (Org_ID c) = false ->
  process_company w api_token date_str d df c n
  = (Ret df, [Log WARNING (MsgNoOrgId (Company_Name c))], n).
Proof.
  unfold process_company. destruct (Org_ID c) as [[| a o] |]; simpl.
  - reflexivity.
  - discriminate.
  - reflexivity.
Qed.

(** A roster entry with an org id: the metrics of its ids are computed on
    the table, published in one request, and the loop pauses. *)
Lemma process_company_with_id w api_token d df c a o n :
  valid_date d -> Org_ID c = Some (String a o) ->
  exists t,
    process_company w api_token (Datetime.strftime d) d df c n
    = (Ret (cleaned df), t, S n)
    /\ effects t =
       [ publish_request api_token (Datetime.strftime d) (String a o)
           (snd (calculate_metrics df (effective_ids (String a o)) d));
         Sleep 1 ].
Proof.
  intros V E. unfold process_company. rewrite E.
  set (ids := bind _ _) at 1.
  assert (Hids : exists msg, forall k,
    (if set_truthy (find_matching_set (String a o) org_id_sets)
     then log INFO (MsgMultipleOrgIds (Company_Name c)
            match find_matching_set (String a o) org_id_sets with
            | Some x => x | None => [] end) ;;
          ret match find_matching_set (String a o) org_id_sets with
              | Some x => x | None => [] end
     else log INFO (MsgSingleOrgId (Company_Name c) (String a o)) ;;
          ret [String a o]) k
    = (Ret (effective_ids (String a o)), [Log INFO msg], k)).
  { rewrite <- effective_ids_code.
    destruct (set_truthy _); eexists; intros k; reflexivity. }
  destruct Hids as [msg Hids]. subst ids. unfold bind at 1. rewrite Hids.
  pose proof (calculate_metrics_table df (effective_ids (String a o)) d) as T.
  destruct (calculate_metrics df (effective_ids (String a o)) d) as [df' [cum fc]].
  simpl in T. subst df'. simpl snd.
  destruct (update_planhat_run w api_token (Planhat_ID c) (String a o) d cum fc
              (Company_Name c) n V) as [t [Ht Hp]].
  unfold bind, log, emit, ret. rewrite Ht. eexists. split; [reflexivity |].
  unfold effects in *. simpl. rewrite filter_app, Hp. reflexivity.
Qed.

Lemma effects_app t1 t2 : effects (t1 ++ t2) = (effects t1 ++ effects t2)%list.
Proof. apply filter_app. Qed.

(** The loop over the roster: it returns, and what it does to the outside
    is [roster_effects] on the table the run started with. *)
Lemma process_companies_run w api_token d df0 roster :
  valid_date d ->
  forall df n, cleaned df = cleaned df0 ->
  exists df' t n',
    process_companies w api_token (Datetime.strftime d) d df roster n = (Ret df', t, n')
    /\ cleaned df' = cleaned df0
    /\ effects t = roster_effects api_token d df0 roster.
Proof.
  intros V. induction roster as [| c rest IH]; intros df n Hdf; simpl.
  - exists df, [], n. auto.
  - unfold bind. destruct (Org_ID c) as [[| a o] |] eqn:E.
    + rewrite process_company_without_id by (rewrite E; reflexivity).
      destruct (IH df n Hdf) as [df' [t [n' [-> [Hc He]]]]].
      exists df', ([Log WARNING (MsgNoOrgId (Company_Name c))] ++ t)%list, n'. auto.
    + destruct (process_company_with_id w api_token d df c a o n V E) as [t1 [-> H1]].
      assert (Hc : cleaned (cleaned df) = cleaned df0)
        by (rewrite cleaned_idem; exact Hdf).
      destruct (IH (cleaned df) (S n) Hc) as [df' [t [n' [-> [Hc' He]]]]].
      exists df', (t1 ++ t)%list, n'. split; [reflexivity |]. split; [exact Hc' |].
      rewrite effects_app, H1, He.
      rewrite (calculate_metrics_cleaned df df0 _ d Hdf).
      destruct V as [_ [Hm [Hd _]]].
      rewrite calculate_metrics_result by lia. reflexivity.
    + rewrite process_company_without_id by (rewrite E; reflexivity).
      destruct (IH df n Hdf) as [df' [t [n' [-> [Hc He]]]]].
      exists df', ([Log WARNING (MsgNoOrgId (Company_Name c))] ++ t)%list, n'. auto.
Qed.

Lemma process_companies_app w api_token date_str d df cs1 cs2 n :
  process_companies w api_token date_str d df (cs1 ++ cs2) n
  = bind (process_companies w api_token date_str d df cs1)
         (fun df1 => process_companies w api_token date_str d df1 cs2) n.
Proof.
  revert df n. induction cs1 as [| c cs1 IH]; intros df n; simpl.
  - unfold bind, ret.
    destruct (process_companies w api_token date_str d df cs2 n) as [[r t] k].
    reflexivity.
  - rewrite bind_assoc. apply bind_ext. intros df1 k. apply IH.
Qed.

(** The loop with and without an entry that has no org id. *)
Lemma process_companies_skip w api_token d df cs1 c cs2 n :
  valid_date d -> truthy (Org_ID c) = false ->
  exists df' t1 t2 n',
    process_companies w api_token (Datetime.strftime d) d df (cs1 ++ c :: cs2) n
    = (Ret df', (t1 ++ [Log WARNING (MsgNoOrgId (Company_Name c))] ++ t2)%list, n')
    /\ process_companies w api_token (Datetime.strftime d) d df (cs1 ++ cs2) n
       = (Ret df', (t1 ++ t2)%list, n').
Proof.
  intros V Hc. rewrite !process_companies_app. unfold bind.
  destruct (process_companies_run w api_token d df cs1 V df n eq_refl)
    as [df1 [t1 [n1 [-> _]]]].
  cbn [process_companies]. unfold bind.
  rewrite (process_company_without_id _ _ _ _ _ _ _ Hc).
  destruct (process_companies_run w api_token d df1 cs2 V df1 n1 eq_refl)
    as [df2 [t2 [n2 [-> _]]]].
  exists df2, t1, t2, n2. split; reflexivity.
Qed.

(** ** The entry point *)

Lemma bind_lift_ret {A B} (a : A) (f : A -> M B) n : bind (lift (Ret a)) f n = f a n.
Proof. unfold bind, lift. destruct (f a n) as [[r t] k]. reflexivity. Qed.

(** With the service-account variable unset, [json.loads] raises before
    anything else happens. *)
Lemma pull_and_update_unset w n :
  getenv w "GCP_SERVICE_ACCOUNT_JSON" = None ->
  pull_and_update w n
  = (Raise (mkexn TypeError
              "the JSON object must be str, bytes or bytearray, not NoneType"),
     [], n).
Proof. intros H. unfold pull_and_update. rewrite H. reflexivity. Qed.

(** The configuration check. *)
Lemma pull_and_update_config_error w s info n :
  getenv w "GCP_SERVICE_ACCOUNT_JSON" = Some s -> json_loads w s = Ret info ->
  truthy (getenv w "BILLING_BUCKET_NAME") = false
  \/ json_truthy info = false
  \/ truthy (getenv w "PLANHAT_API_TOKEN") = false ->
  pull_and_update w n
  = (Ret ("Env var configuration error", 500), [Log ERROR MsgEnvVarsNotSet], n).
Proof.
  intros Hs Hj H. unfold pull_and_update. rewrite Hs. unfold json_loads_env.
  rewrite Hj, bind_lift_ret.
  assert (E : negb (truthy (getenv w "BILLING_BUCKET_NAME"))
              || negb (json_truthy info)
              || negb (truthy (getenv w "PLANHAT_API_TOKEN")) = true).
  { destruct H as [-> | [-> | ->]]; simpl;
      repeat rewrite orb_true_r; reflexivity. }
  rewrite E. reflexivity.
Qed.

(** Past the configuration check the entry point is the rest of its body. *)
Lemma pull_and_update_configured w info bucket_name api_token dd n :
  config_ok w info bucket_name api_token ->
  Datetime.minus_one_day (utcnow w) = Ret dd ->
  pull_and_update w n
  = bind (download_and_process_csv_for_date w bucket_name info
            (Datetime.strftime (utcnow w)))
      (fun df_current =>
         match df_current with
         | None =>
             log ERROR MsgCurrentDataNotAvailable ;;
             ret ("CSV data not available", 500)
         | Some df_current =>
             df_companies <- fetch_planhat_companies w api_token 500 ;;
             match df_companies with
             | None =>
                 log ERROR MsgFailedToFetchCompanies ;;
                 ret ("Failed to fetch companies", 500)
             | Some df_companies =>
                 process_companies w api_token (Datetime.strftime dd) dd
                                   df_current df_companies ;;
                 log INFO MsgScriptCompleted ;;
                 ret ("Success", 200)
             end
         end) n.
Proof.
  intros [[s [Hs Hj]] [Hi [Hb [Hbe [Ht Hte]]]]] Hd. unfold pull_and_update.
  rewrite Hs. unfold json_loads_env. rewrite Hj, bind_lift_ret.
  rewrite Hb, Ht. cbn [truthy]. rewrite Hi, Hbe, Hte. cbn [negb orb].
  rewrite Hd, bind_lift_ret. reflexivity.
Qed.

Lemma pull_and_update_no_csv w info bucket_name api_token dd t1 :
  config_ok w info bucket_name api_token ->
  Datetime.minus_one_day (utcnow w) = Ret dd ->
  run (download_and_process_csv_for_date w bucket_name info
         (Datetime.strftime (utcnow w))) = (Ret None, t1) ->
  run (pull_and_update w)
  = (Ret ("CSV data not available", 500),
     (t1 ++ [Log ERROR MsgCurrentDataNotAvailable])%list).
Proof.
  intros C Hd H1. unfold run at 1.
  rewrite (pull_and_update_configured _ _ _ _ _ _ C Hd). unfold bind at 1.
  rewrite (download_sends_nothing _ _ _ _ O), H1. reflexivity.
Qed.

Lemma pull_and_update_no_roster w info bucket_name api_token dd df t1 t2 :
  config_ok w info bucket_name api_token ->
  Datetime.minus_one_day (utcnow w) = Ret dd ->
  run (download_and_process_csv_for_date w bucket_name info
         (Datetime.strftime (utcnow w))) = (Ret (Some df), t1) ->
  run (fetch_planhat_companies w api_token 500) = (Ret None, t2) ->
  run (pull_and_update w)
  = (Ret ("Failed to fetch companies", 500),
     (t1 ++ t2 ++ [Log ERROR MsgFailedToFetchCompanies])%list).
Proof.
  intros C Hd H1 H2. unfold run at 1.
  rewrite (pull_and_update_configured _ _ _ _ _ _ C Hd). unfold bind at 1.
  rewrite (download_sends_nothing _ _ _ _ O), H1. cbn [fst snd].
  unfold bind at 1. rewrite (fetch_sends_nothing _ _ _ O), H2. reflexivity.
Qed.

Lemma pull_and_update_success w info bucket_name api_token dd df roster t1 t2 :
  config_ok w info bucket_name api_token ->
  Datetime.minus_one_day (utcnow w) = Ret dd -> valid_date dd ->
  run (download_and_process_csv_for_date w bucket_name info
         (Datetime.strftime (utcnow w))) = (Ret (Some df), t1) ->
  run (fetch_planhat_companies w api_token 500) = (Ret (Some roster), t2) ->
  exists df' t3 n',
    process_companies w api_token (Datetime.strftime dd) dd df roster O
    = (Ret df', t3, n')
    /\ run (pull_and_update w)
       = (Ret ("Success", 200),
          (t1 ++ t2 ++ t3 ++ [Log INFO MsgScriptCompleted])%list)
    /\ effects t3 = roster_effects api_token dd df roster.
Proof.
  intros C Hd V H1 H2.
  destruct (process_companies_run w api_token dd df roster V df O eq_refl)
    as [df' [t3 [n' [Hp [_ He]]]]].
  exists df', t3, n'. split; [exact Hp |]. split; [| exact He].
  unfold run at 1.
  rewrite (pull_and_update_configured _ _ _ _ _ _ C Hd). unfold bind at 1.
  rewrite (download_sends_nothing _ _ _ _ O), H1. cbn [fst snd].
  unfold bind at 1. rewrite (fetch_sends_nothing _ _ _ O), H2. cbn [fst snd].
  unfold bind at 1. rewrite Hp. reflexivity.
Qed.

(** ** Worlds that answer alike *)

Lemma first_csv_world w w' target_date blobs n :
  read_csv w' = read_csv w ->
  first_csv_for_date w' target_date blobs n = first_csv_for_date w target_date blobs n.
Proof.
  intros H. induction blobs as [| b rest IH | e]; simpl; try reflexivity.
  destruct (_ && _); [rewrite H; reflexivity | exact IH].
Qed.

Lemma download_world w w' bucket_name info target_date n :
  get_bucket w' = get_bucket w -> read_csv w' = read_csv w ->
  download_and_process_csv_for_date w' bucket_name info target_date n
  = download_and_process_csv_for_date w bucket_name info target_date n.
Proof.
  intros Hb Hr. unfold download_and_process_csv_for_date, try_except.
  assert (E : forall k,
    (emit (StorageGetBucket bucket_name) ;;
     bucket <- lift (get_bucket w' info bucket_name) ;;
     log INFO (MsgAccessingBucket bucket_name target_date) ;;
     first_csv_for_date w' target_date bucket) k
    = (emit (StorageGetBucket bucket_name) ;;
       bucket <- lift (get_bucket w info bucket_name) ;;
       log INFO (MsgAccessingBucket bucket_name target_date) ;;
       first_csv_for_date w target_date bucket) k).
  { intros k. rewrite Hb. apply bind_ext. intros _ k1. apply bind_ext.
    intros blobs k2. apply bind_ext. intros _ k3. apply first_csv_world, Hr. }
  rewrite E. reflexivity.
Qed.

Lemma fetch_world w w' api_token limit n :
  get_companies w' = get_companies w ->
  fetch_planhat_companies w' api_token limit n
  = fetch_planhat_companies w api_token limit n.
Proof. intros H. unfold fetch_planhat_companies. rewrite H. reflexivity. Qed.

Lemma process_company_world w w' api_token date_str d df c n :
  post_dimensiondata w' = post_dimensiondata w ->
  process_company w' api_token date_str d df c n
  = process_company w api_token date_str d df c n.
Proof.
  intros H. unfold process_company, update_planhat, http_post. rewrite H.
  reflexivity.
Qed.

Lemma process_companies_world w w' api_token date_str d df roster n :
  post_dimensiondata w' = post_dimensiondata w ->
  process_companies w' api_token date_str d df roster n
  = process_companies w api_token date_str d df roster n.
Proof.
  intros H. revert df n. induction roster as [| c rest IH]; intros df n; simpl.
  - reflexivity.
  - unfold bind. rewrite (process_company_world w w' _ _ _ _ _ _ H).
    destruct (process_company w api_token date_str d df c n) as [[[df1 | e] t1] n1];
      [| reflexivity].
    rewrite IH. reflexivity.
Qed.

Lemma download_with_roster w cs bucket_name info target_date n :
  download_and_process_csv_for_date (with_roster w cs) bucket_name info target_date n
  = download_and_process_csv_for_date w bucket_name info target_date n.
Proof. apply download_world; reflexivity. Qed.

(** The entry point does not read the tenant identifier. *)
Lemma pull_and_update_tenant w n :
  pull_and_update (unset "PLANHAT_TENANT_TOKEN" w) n = pull_and_update w n.
Proof.
  unfold pull_and_update. cbn [getenv unset String.eqb Ascii.eqb Bool.eqb andb].
  apply bind_ext. intros info k.
  destruct (_ || _); [reflexivity |].
  destruct (getenv w "BILLING_BUCKET_NAME") as [bucket_name |]; [| reflexivity].
  destruct (getenv w "PLANHAT_API_TOKEN") as [api_token |]; [| reflexivity].
  apply bind_ext. intros dd k1. cbn [utcnow unset].
  apply bind_cong; [intros k2; apply download_world; reflexivity |].
  intros [df |] k2; [| reflexivity].
  apply bind_cong; [intros k3; apply fetch_world; reflexivity |].
  intros [roster |] k3; [| reflexivity].
  apply bind_cong; [intros k4; apply process_companies_world; reflexivity |].
  reflexivity.
Qed.

Lemma config_ok_with_roster w cs info bucket_name api_token :
  config_ok w info bucket_name api_token ->
  config_ok (with_roster w cs) info bucket_name api_token.
Proof. intros H. exact H. Qed.

Lemma fetch_with_roster w cs api_token :
  run (fetch_planhat_companies (with_roster w cs) api_token 500)
  = (Ret (Some cs),
     [ Log INFO MsgFetchingCompanies;
       HttpGet companies_url (bearer api_token) 0 500;
       Log INFO (MsgFetchedCompanies (List.length cs)) ]).
Proof. reflexivity. Qed.

Lemma roster_effects_app api_token d df cs1 cs2 :
  roster_effects api_token d df (cs1 ++ cs2)
  = (roster_effects api_token d df cs1 ++ roster_effects api_token d df cs2)%list.
Proof. apply flat_map_app. Qed.

(* ================================================================= *)
(** * The claims *)

(** C1. For every table, id set and reference date, [calculate_metrics]
    returns the pair (round(S, 2), round((S / d) * m, 2)): S is the sum of
    [Total] over the rows whose normalized id belongs to the normalized id
    set, a value that is no number counting as 0; d is the day of the month
    and m the number of days of the month, leap years included.  Totals
    [100, no number, 50] on day 10 of a month of 30 days give (150, 450); one
    row of 300 on 2024-02-10 gives a month of 29 days and a forecast of
    870. *)
Theorem calculate_metrics_spec :
  (forall df org_ids d,
     valid_date d ->
     snd (calculate_metrics df org_ids d) = metrics df org_ids d)
  /\ (forall o s y m,
        Calendar.monthrange_days y m = 30 ->
        metrics_eq
          (snd (calculate_metrics
                  [mkrow o (Num 100); mkrow o (Text s); mkrow o (Num 50)]
                  [o] (mkdate y m 10)))
          (150, 450)%Q)
  /\ (forall o,
        Calendar.monthrange_days 2024 2 = 29
        /\ metrics_eq
             (snd (calculate_metrics [mkrow o (Num 300)] [o] (mkdate 2024 2 10)))
             (300, 870)%Q).
Proof.
  split; [| split].
  - intros df org_ids d [_ [Hm [Hd _]]]. apply calculate_metrics_result; lia.
  - intros o s y m H. unfold calculate_metrics. cbn [map filter OrganizationID Total
      year month day]. rewrite H. unfold PyStr.mem. cbn [existsb].
    rewrite String.eqb_refl. cbn [orb map Total]. split; reflexivity.
  - intros o. split; [reflexivity |]. unfold calculate_metrics.
    cbn [map filter OrganizationID Total year month day].
    unfold PyStr.mem. cbn [existsb]. rewrite String.eqb_refl.
    cbn [orb map Total]. split; reflexivity.
Qed.

Lemma calculate_metrics_spec_witness :
  valid_date (mkdate 2024 4 10)
  /\ snd (calculate_metrics sample_usage ["OrgA "] (mkdate 2024 4 10))
     = metrics sample_usage ["OrgA "] (mkdate 2024 4 10)
  /\ Calendar.monthrange_days 2024 4 = 30
  /\ metrics_eq
       (snd (calculate_metrics
               [mkrow "org1" (Num 100); mkrow "org1" (Text "n/a");
                mkrow "org1" (Num 50)]
               ["org1"] (mkdate 2024 4 10)))
       (150, 450)%Q.
Proof.
  assert (V : valid_date (mkdate 2024 4 10)) by (apply valid_dateb_sound; reflexivity).
  split; [exact V |]. split.
  - exact (proj1 calculate_metrics_spec sample_usage ["OrgA "] (mkdate 2024 4 10) V).
  - split; [reflexivity |].
    exact (proj1 (proj2 calculate_metrics_spec) "org1" "n/a" 2024 4 eq_refl).
Defined.

Ltac case_variant :=
  match goal with
  | |- case_variant ?a ?b =>
      first [ apply cv_same
            | exact (cv_down a eq_refl)
            | exact (cv_up b eq_refl) ]
  end.

Ltac case_alike := repeat (apply ca_cons; [case_variant |]); apply ca_nil.

(** C4. The pair [calculate_metrics] returns does not change when an id of
    the set or an [OrganizationID] of the table is altered in letter case or
    in leading and trailing white space only; so [" OrgA "], ["orga"] and
    ["ORGA"] match the same rows and give equal results. *)
Theorem calculate_metrics_id_invariant :
  (forall df df' org_ids org_ids' d,
     Forall2 row_variant df df' -> Forall2 id_variant org_ids org_ids' ->
     snd (calculate_metrics df org_ids d) = snd (calculate_metrics df' org_ids' d))
  /\ id_variant " OrgA " "orga" /\ id_variant "orga" "ORGA"
  /\ (forall df d,
        snd (calculate_metrics df [" OrgA "] d) = snd (calculate_metrics df ["orga"] d)
        /\ snd (calculate_metrics df ["orga"] d) = snd (calculate_metrics df ["ORGA"] d)).
Proof.
  assert (G : forall df df' org_ids org_ids' d,
     Forall2 row_variant df df' -> Forall2 id_variant org_ids org_ids' ->
     snd (calculate_metrics df org_ids d) = snd (calculate_metrics df' org_ids' d)).
  { intros df df' org_ids org_ids' d Hdf Hids.
    assert (E1 : cleaned df = cleaned df').
    { induction Hdf as [| r r' df df' [Hr Ht] _ IH]; simpl; [reflexivity |].
      rewrite (normalize_variant _ _ Hr), Ht, IH. reflexivity. }
    assert (E2 : map normalize org_ids = map normalize org_ids').
    { induction Hids as [| o o' ids ids' Ho _ IH]; simpl; [reflexivity |].
      rewrite (normalize_variant _ _ Ho), IH. reflexivity. }
    rewrite (calculate_metrics_cleaned df df' org_ids d E1).
    unfold calculate_metrics. cbv zeta. simpl snd.
    change (map (fun org_id => PyStr.lower (PyStr.strip org_id)) org_ids)
      with (map normalize org_ids).
    change (map (fun org_id => PyStr.lower (PyStr.strip org_id)) org_ids')
      with (map normalize org_ids').
    rewrite E2. reflexivity. }
  assert (V1 : id_variant " OrgA " "orga")
    by (apply (idv _ _ " " "OrgA" " " EmptyString "orga" EmptyString); try reflexivity; case_alike).
  assert (V2 : id_variant "orga" "ORGA")
    by (apply (idv _ _ EmptyString "orga" EmptyString EmptyString "ORGA" EmptyString); try reflexivity; case_alike).
  assert (R : forall df, Forall2 row_variant df df).
  { induction df as [| r df IH]; constructor; [| exact IH].
    split; [apply id_variant_refl | reflexivity]. }
  split; [exact G |]. split; [exact V1 |]. split; [exact V2 |].
  intros df d. split; apply G; try apply R; repeat constructor; assumption.
Qed.

Lemma calculate_metrics_id_invariant_witness :
  Forall2 row_variant sample_usage
    [ mkrow "orga" (Num 100); mkrow " orga" (Text "n/a"); mkrow "OrgA  " (Num 50);
      mkrow "7ba2041d-b88f-4b67-a63a-64e78962b014" (Num 7);
      mkrow "a29883b2-997e-4b44-8bf5-a0a95bbdf639" (Num 5) ]
  /\ Forall2 id_variant ["ORGA "] [" orga"]
  /\ snd (calculate_metrics sample_usage ["ORGA "] (mkdate 2024 4 10))
     = snd (calculate_metrics
              [ mkrow "orga" (Num 100); mkrow " orga" (Text "n/a");
                mkrow "OrgA  " (Num 50);
                mkrow "7ba2041d-b88f-4b67-a63a-64e78962b014" (Num 7);
                mkrow "a29883b2-997e-4b44-8bf5-a0a95bbdf639" (Num 5) ]
              [" orga"] (mkdate 2024 4 10)).
Proof.
  assert (H1 : Forall2 row_variant sample_usage
    [ mkrow "orga" (Num 100); mkrow " orga" (Text "n/a"); mkrow "OrgA  " (Num 50);
      mkrow "7ba2041d-b88f-4b67-a63a-64e78962b014" (Num 7);
      mkrow "a29883b2-997e-4b44-8bf5-a0a95bbdf639" (Num 5) ]).
  { unfold sample_usage. repeat apply Forall2_cons; try apply Forall2_nil;
      (split; [| reflexivity]); simpl.
    - apply (idv _ _ " " "OrgA" " " EmptyString "orga" EmptyString); try reflexivity; case_alike.
    - apply (idv _ _ EmptyString "ORGA" EmptyString " " "orga" EmptyString); try reflexivity; case_alike.
    - apply (idv _ _ EmptyString "orga" EmptyString EmptyString "OrgA" "  "); try reflexivity; case_alike.
    - apply (idv _ _ EmptyString "7BA2041D-b88f-4b67-a63a-64e78962b014" EmptyString
                     EmptyString "7ba2041d-b88f-4b67-a63a-64e78962b014" EmptyString);
        try reflexivity; case_alike.
    - apply (idv _ _ EmptyString "a29883b2-997e-4b44-8bf5-a0a95bbdf639" EmptyString
                     EmptyString "a29883b2-997e-4b44-8bf5-a0a95bbdf639" EmptyString);
        try reflexivity; case_alike. }
  assert (H2 : Forall2 id_variant ["ORGA "] [" orga"]).
  { apply Forall2_cons; [| apply Forall2_nil].
    apply (idv _ _ EmptyString "ORGA" " " " " "orga" EmptyString); try reflexivity; case_alike. }
  split; [exact H1 |]. split; [exact H2 |].
  exact (proj1 calculate_metrics_id_invariant _ _ _ _ (mkdate 2024 4 10) H1 H2).
Defined.

(** C8 as stated fails: the call writes the normalized ids and the coerced
    totals back into the table it was given. *)
Lemma calculate_metrics_rewrites_table :
  fst (calculate_metrics [mkrow " OrgA " (Text "n/a")] ["orga"] (mkdate 2024 4 10))
  <> [mkrow " OrgA " (Text "n/a")].
Proof. vm_compute. discriminate. Qed.

(** C8, amended.  [calculate_metrics] replaces the table's [OrganizationID]
    column by the normalized ids and its [Total] column by the coerced
    numbers.  A table so rewritten is not changed by a further call, and
    every later call, with any id set and date, returns the pair it returns
    on the table as loaded. *)
Theorem calculate_metrics_table_effect :
  forall df org_ids d,
    fst (calculate_metrics df org_ids d) = cleaned df
    /\ forall org_ids' d',
         calculate_metrics (fst (calculate_metrics df org_ids d)) org_ids' d'
         = (cleaned df, snd (calculate_metrics df org_ids' d')).
Proof.
  intros df org_ids d. split; [apply calculate_metrics_table |].
  intros org_ids' d'. rewrite calculate_metrics_table.
  rewrite (surjective_pairing (calculate_metrics (cleaned df) org_ids' d')).
  rewrite calculate_metrics_table, cleaned_idem.
  rewrite (calculate_metrics_cleaned (cleaned df) df org_ids' d' (cleaned_idem df)).
  reflexivity.
Qed.

(** C2. With the configuration set and both fetches successful, the run
    publishes, for every roster company that has an org id, the metrics of
    the table over [effective_ids] of that id, computed on the table as
    loaded: for an id that is a member of an alias set these are all ids of
    the set, for an id in no alias set the id alone. *)
Theorem orchestrator_alias_sets :
  (forall w info bucket_name api_token dd df roster,
     config_ok w info bucket_name api_token ->
     valid_date (utcnow w) -> Datetime.minus_one_day (utcnow w) = Ret dd ->
     fst (run (download_and_process_csv_for_date w bucket_name info
                 (Datetime.strftime (utcnow w)))) = Ret (Some df) ->
     fst (run (fetch_planhat_companies w api_token 500)) = Ret (Some roster) ->
     exists t0 t3,
       run (pull_and_update w)
       = (Ret ("Success", 200), (t0 ++ t3 ++ [Log INFO MsgScriptCompleted])%list)
       /\ t0 = (snd (run (download_and_process_csv_for_date w bucket_name info
                            (Datetime.strftime (utcnow w))))
                ++ snd (run (fetch_planhat_companies w api_token 500)))%list
       /\ effects t3 = roster_effects api_token dd df roster)
  /\ (forall o A, In A org_id_sets -> In o A -> effective_ids o = A)
  /\ (forall o, (forall A, In A org_id_sets -> ~ In o A) -> effective_ids o = [o]).
Proof.
  split; [| split].
  - intros w info bucket_name api_token dd df roster C V Hd H1 H2.
    pose proof (minus_one_day_valid _ _ V Hd) as Vd.
    destruct (run (download_and_process_csv_for_date w bucket_name info
                     (Datetime.strftime (utcnow w)))) as [r1 t1] eqn:E1.
    destruct (run (fetch_planhat_companies w api_token 500)) as [r2 t2] eqn:E2.
    simpl in H1, H2. subst r1 r2.
    destruct (pull_and_update_success w info bucket_name api_token dd df roster
                t1 t2 C Hd Vd E1 E2) as [df' [t3 [n' [_ [Hr He]]]]].
    exists (t1 ++ t2)%list, t3. rewrite Hr, <- app_assoc. auto.
  - intros o A HA Ho. unfold effective_ids, org_id_sets in *.
    destruct HA as [<- | [<- | []]]; simpl in Ho.
    + assert (E : PyStr.mem o
                    ["7ba2041d-b88f-4b67-a63a-64e78962b014";
                     "a29883b2-997e-4b44-8bf5-a0a95bbdf639"] = true)
        by (apply mem_In; simpl; tauto).
      cbn [find]. rewrite E. reflexivity.
    + assert (E : PyStr.mem o
                    ["551cf481-0042-4076-a5a1-a78e23193c84";
                     "c116cabe-9d57-46c3-b37b-a93e8f52967e"] = true)
        by (apply mem_In; simpl; tauto).
      cbn [find]. rewrite E.
      destruct Ho as [<- | [<- | []]]; reflexivity.
  - intros o H. unfold effective_ids.
    destruct (find _ org_id_sets) as [A |] eqn:E; [| reflexivity].
    apply find_some in E as [HA Hm]. apply mem_In in Hm.
    exfalso. exact (H A HA Hm).
Qed.

Lemma sample_config_ok : config_ok sample_world sample_info "billing" "token".
Proof.
  unfold config_ok. split; [exists "{}"; split; reflexivity |].
  repeat split; reflexivity.
Qed.

Lemma orchestrator_alias_sets_witness :
  exists t0 t3,
    run (pull_and_update sample_world)
    = (Ret ("Success", 200), (t0 ++ t3 ++ [Log INFO MsgScriptCompleted])%list)
    /\ t0 = (snd (run (download_and_process_csv_for_date sample_world "billing"
                         sample_info (Datetime.strftime (utcnow sample_world))))
             ++ snd (run (fetch_planhat_companies sample_world "token" 500)))%list
    /\ effects t3
       = roster_effects "token" (mkdate 2024 2 29) sample_usage sample_roster.
Proof.
  apply (proj1 orchestrator_alias_sets sample_world sample_info "billing" "token"
           (mkdate 2024 2 29) sample_usage sample_roster).
  - exact sample_config_ok.
  - apply valid_dateb_sound. reflexivity.
  - reflexivity.
  - reflexivity.
  - reflexivity.
Defined.

(** C9. A roster entry whose org id is null or empty is skipped with a
    warning: the loop does for the roster with the entry what it does for the
    roster without it, and logs one warning in between; the run returns the
    same status and does the same to the outside with and without it. *)
Theorem roster_entry_without_org_id :
  forall w info bucket_name api_token dd df cs1 c cs2,
    truthy (Org_ID c) = false ->
    config_ok w info bucket_name api_token ->
    valid_date (utcnow w) -> Datetime.minus_one_day (utcnow w) = Ret dd ->
    fst (run (download_and_process_csv_for_date w bucket_name info
                (Datetime.strftime (utcnow w)))) = Ret (Some df) ->
    (forall n, exists df' t1 t2 n',
       process_companies w api_token (Datetime.strftime dd) dd df (cs1 ++ c :: cs2) n
       = (Ret df',
          (t1 ++ [Log WARNING (MsgNoOrgId (Company_Name c))] ++ t2)%list, n')
       /\ process_companies w api_token (Datetime.strftime dd) dd df (cs1 ++ cs2) n
          = (Ret df', (t1 ++ t2)%list, n'))
    /\ fst (run (pull_and_update (with_roster w (cs1 ++ c :: cs2))))
       = Ret ("Success", 200)
    /\ fst (run (pull_and_update (with_roster w (cs1 ++ cs2))))
       = Ret ("Success", 200)
    /\ effects (snd (run (pull_and_update (with_roster w (cs1 ++ c :: cs2)))))
       = effects (snd (run (pull_and_update (with_roster w (cs1 ++ cs2))))).
Proof.
  intros w info bucket_name api_token dd df cs1 c cs2 Hc C V Hd H1.
  pose proof (minus_one_day_valid _ _ V Hd) as Vd.
  split; [intros n; apply process_companies_skip; assumption |].
  assert (S : forall cs, exists t1 t3,
    run (pull_and_update (with_roster w cs))
    = (Ret ("Success", 200),
       (t1 ++ [ Log INFO MsgFetchingCompanies;
                HttpGet companies_url (bearer api_token) 0 500;
                Log INFO (MsgFetchedCompanies (List.length cs)) ]
           ++ t3 ++ [Log INFO MsgScriptCompleted])%list)
    /\ t1 = snd (run (download_and_process_csv_for_date w bucket_name info
                        (Datetime.strftime (utcnow w))))
    /\ effects t3 = roster_effects api_token dd df cs).
  { intros cs.
    destruct (run (download_and_process_csv_for_date w bucket_name info
                     (Datetime.strftime (utcnow w)))) as [r1 t1] eqn:E1.
    simpl in H1. subst r1.
    assert (E1' : run (download_and_process_csv_for_date (with_roster w cs)
                         bucket_name info
                         (Datetime.strftime (utcnow (with_roster w cs))))
                  = (Ret (Some df), t1)).
    { unfold run. rewrite download_with_roster. exact E1. }
    destruct (pull_and_update_success (with_roster w cs) info bucket_name api_token
                dd df cs t1 _ (config_ok_with_roster w cs _ _ _ C) Hd Vd E1'
                (fetch_with_roster w cs api_token))
      as [df' [t3 [n' [_ [Hr He]]]]].
    exists t1, t3. auto. }
  destruct (S (cs1 ++ c :: cs2)%list) as [t1 [t3 [R1 [T1 E3]]]].
  destruct (S (cs1 ++ cs2)%list) as [t1' [t3' [R2 [T1' E3']]]].
  rewrite R1, R2. split; [reflexivity |]. split; [reflexivity |].
  cbn [snd]. subst t1 t1'. rewrite !effects_app, E3, E3'.
  rewrite !roster_effects_app. f_equal. f_equal. f_equal. f_equal.
  unfold roster_effects at 1. cbn [flat_map].
  destruct (Org_ID c) as [[| a o] |]; try reflexivity. discriminate.
Qed.

Lemma roster_entry_without_org_id_witness :
  (forall n, exists df' t1 t2 n',
     process_companies sample_world "token" "2024-02-29" (mkdate 2024 2 29)
       sample_usage
       ([mkcompany (Some "p1") (Some "orga") (Some "A")]
        ++ mkcompany (Some "p2") None (Some "B")
        :: [mkcompany (Some "p3") (Some provenir_lower) (Some "Provenir")]) n
     = (Ret df', (t1 ++ [Log WARNING (MsgNoOrgId (Some "B"))] ++ t2)%list, n')
     /\ process_companies sample_world "token" "2024-02-29" (mkdate 2024 2 29)
          sample_usage
          ([mkcompany (Some "p1") (Some "orga") (Some "A")]
           ++ [mkcompany (Some "p3") (Some provenir_lower) (Some "Provenir")]) n
        = (Ret df', (t1 ++ t2)%list, n'))
  /\ fst (run (pull_and_update (with_roster sample_world sample_roster)))
     = Ret ("Success", 200).
Proof.
  destruct (roster_entry_without_org_id sample_world sample_info "billing" "token"
              (mkdate 2024 2 29) sample_usage
              [mkcompany (Some "p1") (Some "orga") (Some "A")]
              (mkcompany (Some "p2") None (Some "B"))
              [mkcompany (Some "p3") (Some provenir_lower) (Some "Provenir")]
              eq_refl sample_config_ok
              (valid_dateb_sound (mkdate 2024 3 1) eq_refl) eq_refl eq_refl)
    as [H1 [H2 _]].
  split; [exact H1 | exact H2].
Defined.

(** C6. [download_and_process_csv_for_date] never raises.  It returns
    [None] when no object of the bucket has a name that contains the date and
    ends in [.csv], and [None] when reaching the bucket raises, whatever the
    exception; a table is returned only when such an object was found,
    downloaded and parsed.  So [None] does not tell the causes apart. *)
Theorem download_never_raises :
  forall w bucket_name info target_date,
    (exists v t,
       run (download_and_process_csv_for_date w bucket_name info target_date)
       = (Ret v, t))
    /\ (forall blobs,
          get_bucket w info bucket_name = Ret blobs ->
          (forall b, In b (listed blobs) -> ~ (has_date target_date b /\ is_csv b)) ->
          fst (run (download_and_process_csv_for_date w bucket_name info target_date))
          = Ret None)
    /\ (forall e,
          get_bucket w info bucket_name = Raise e ->
          fst (run (download_and_process_csv_for_date w bucket_name info target_date))
          = Ret None)
    /\ (forall df,
          fst (run (download_and_process_csv_for_date w bucket_name info target_date))
          = Ret (Some df) ->
          exists blobs b s,
            get_bucket w info bucket_name = Ret blobs /\ In b (listed blobs) /\
            has_date target_date b /\ is_csv b /\
            download_as_string b = Ret s /\ read_csv w s = Ret df).
Proof.
  intros w bucket_name info target_date. repeat split.
  - destruct (download_returns w bucket_name info target_date O) as [v [t H]].
    exists v, t. unfold run. rewrite H. reflexivity.
  - intros blobs. apply download_no_file.
  - intros e. apply download_bucket_error.
  - intros df. apply download_some.
Qed.

Lemma download_never_raises_witness :
  (fst (run (download_and_process_csv_for_date
               (with_bucket sample_world
                  (Ret (IterNext (mkblob "usage-2024-02-29.csv" (Ret EmptyString))
                        (IterNext (mkblob "usage-2024-03-01.txt" (Ret EmptyString))
                         (IterRaise (mkexn GoogleAPIError "503"))))))
               "billing" sample_info "2024-03-01")) = Ret None)
  /\ (fst (run (download_and_process_csv_for_date
                  (with_bucket sample_world (Raise (mkexn NotFound "404")))
                  "billing" sample_info "2024-03-01")) = Ret None)
  /\ (fst (run (download_and_process_csv_for_date
                  (with_bucket sample_world (Raise (mkexn Forbidden "403")))
                  "billing" sample_info "2024-03-01")) = Ret None)
  /\ (fst (run (download_and_process_csv_for_date
                  (with_bucket sample_world (Raise (mkexn ValueError "?")))
                  "billing" sample_info "2024-03-01")) = Ret None)
  /\ exists blobs b s,
       get_bucket sample_world sample_info "billing" = Ret blobs /\
       In b (listed blobs) /\
       has_date "2024-03-01" b /\ is_csv b /\
       download_as_string b = Ret s /\ read_csv sample_world s = Ret sample_usage.
Proof.
  split; [| split; [| split; [| split]]].
  - apply (proj1 (proj2 (download_never_raises _ "billing" sample_info "2024-03-01"))
             (IterNext (mkblob "usage-2024-02-29.csv" (Ret EmptyString))
                (IterNext (mkblob "usage-2024-03-01.txt" (Ret EmptyString))
                   (IterRaise (mkexn GoogleAPIError "503"))))).
    + reflexivity.
    + intros b [<- | [<- | []]] H; apply blob_test_spec in H; discriminate.
  - apply (proj1 (proj2 (proj2 (download_never_raises _ "billing" sample_info
                                  "2024-03-01"))) (mkexn NotFound "404")).
    reflexivity.
  - apply (proj1 (proj2 (proj2 (download_never_raises _ "billing" sample_info
                                  "2024-03-01"))) (mkexn Forbidden "403")).
    reflexivity.
  - apply (proj1 (proj2 (proj2 (download_never_raises _ "billing" sample_info
                                  "2024-03-01"))) (mkexn ValueError "?")).
    reflexivity.
  - apply (proj2 (proj2 (proj2 (download_never_raises sample_world "billing"
                                  sample_info "2024-03-01")))).
    reflexivity.
Defined.

(** C7 as stated fails: with the tenant identifier absent and the other
    three inputs set, the run is no configuration error. *)
Lemma tenant_identifier_not_required :
  getenv sample_world "PLANHAT_TENANT_TOKEN" = None
  /\ getenv sample_world "GCP_SERVICE_ACCOUNT_JSON" <> None
  /\ getenv sample_world "PLANHAT_API_TOKEN" <> None
  /\ getenv sample_world "BILLING_BUCKET_NAME" <> None
  /\ fst (run (pull_and_update sample_world)) = Ret ("Success", 200).
Proof. repeat split; try discriminate; reflexivity. Qed.

(** C7, amended.  With the service-account variable set to text that
    decodes: if the bucket name or the API token is absent or empty, or the
    decoded credentials are empty, the entry point logs the configuration
    error and returns it with status 500, and this log line is the only
    event of the run: no fetch and no publish is attempted.  The tenant
    identifier is no required input: a run is the same with it unset. *)
Theorem configuration_error :
  (forall w s info,
     getenv w "GCP_SERVICE_ACCOUNT_JSON" = Some s -> json_loads w s = Ret info ->
     truthy (getenv w "BILLING_BUCKET_NAME") = false
     \/ json_truthy info = false
     \/ truthy (getenv w "PLANHAT_API_TOKEN") = false ->
     run (pull_and_update w)
     = (Ret ("Env var configuration error", 500), [Log ERROR MsgEnvVarsNotSet]))
  /\ (forall w,
        run (pull_and_update (unset "PLANHAT_TENANT_TOKEN" w))
        = run (pull_and_update w)).
Proof.
  split.
  - intros w s info Hs Hj H. unfold run.
    rewrite (pull_and_update_config_error w s info O Hs Hj H). reflexivity.
  - intros w. unfold run. rewrite pull_and_update_tenant. reflexivity.
Qed.

Lemma configuration_error_witness :
  run (pull_and_update (unset "BILLING_BUCKET_NAME" sample_world))
  = (Ret ("Env var configuration error", 500), [Log ERROR MsgEnvVarsNotSet])
  /\ run (pull_and_update (unset "PLANHAT_API_TOKEN" sample_world))
     = (Ret ("Env var configuration error", 500), [Log ERROR MsgEnvVarsNotSet]).
Proof.
  split.
  - apply (proj1 configuration_error (unset "BILLING_BUCKET_NAME" sample_world)
             "{}" sample_info eq_refl eq_refl).
    left. reflexivity.
  - apply (proj1 configuration_error (unset "PLANHAT_API_TOKEN" sample_world)
             "{}" sample_info eq_refl eq_refl).
    right. right. reflexivity.
Defined.

(** C10. With [GCP_SERVICE_ACCOUNT_JSON] unset, [pull_and_update] raises the
    [TypeError] of [json.loads] before the configuration check, with no event
    at all; it returns no (message, 500) pair. *)
Theorem unset_service_account_raises :
  forall w,
    getenv w "GCP_SERVICE_ACCOUNT_JSON" = None ->
    (exists e, run (pull_and_update w) = (Raise e, []) /\ exn_class e = TypeError)
    /\ forall msg, fst (run (pull_and_update w)) <> Ret (msg, 500).
Proof.
  intros w H. unfold run. rewrite (pull_and_update_unset w O H). simpl. split.
  - eexists. split; reflexivity.
  - intros msg. discriminate.
Qed.

Lemma unset_service_account_raises_witness :
  (exists e,
     run (pull_and_update (unset "GCP_SERVICE_ACCOUNT_JSON" sample_world))
     = (Raise e, []) /\ exn_class e = TypeError)
  /\ forall msg,
       fst (run (pull_and_update (unset "GCP_SERVICE_ACCOUNT_JSON" sample_world)))
       <> Ret (msg, 500).
Proof.
  apply (unset_service_account_raises (unset "GCP_SERVICE_ACCOUNT_JSON" sample_world)).
  reflexivity.
Defined.

(** C5 at the failing input: the service-account variable is the one piece
    of configuration that is missing, and the run ends in an exception, not
    in a status 500. *)
Theorem missing_credentials_give_no_status :
  getenv (unset "GCP_SERVICE_ACCOUNT_JSON" sample_world) "GCP_SERVICE_ACCOUNT_JSON"
  = None
  /\ run (pull_and_update (unset "GCP_SERVICE_ACCOUNT_JSON" sample_world))
     = (Raise (mkexn TypeError
                 "the JSON object must be str, bytes or bytearray, not NoneType"),
        [])
  /\ run (pull_and_update (unset "BILLING_BUCKET_NAME" sample_world))
     = (Ret ("Env var configuration error", 500), [Log ERROR MsgEnvVarsNotSet]).
Proof. repeat split. Qed.

(** C3 at the failing input: the roster id is an alias-set member written
    in upper case.  The calculator matches its rows all the same, but the
    alias lookup finds no set for it, so the rows of the other id of the set
    are left out of what is published. *)
Theorem alias_lookup_is_case_sensitive :
  id_variant provenir_upper provenir_lower
  /\ find_matching_set provenir_lower org_id_sets
     = Some [ "7ba2041d-b88f-4b67-a63a-64e78962b014"; provenir_lower ]
  /\ find_matching_set provenir_upper org_id_sets = None
  /\ snd (calculate_metrics sample_usage [provenir_upper] (mkdate 2024 2 29))
     = snd (calculate_metrics sample_usage [provenir_lower] (mkdate 2024 2 29))
  /\ posts_of (snd (run (pull_and_update
        (with_roster sample_world [mkcompany None (Some provenir_lower) None]))))
     = [ publish_request "token" "2024-02-29" provenir_lower (round2 12, round2 12) ]
  /\ posts_of (snd (run (pull_and_update
        (with_roster sample_world [mkcompany None (Some provenir_upper) None]))))
     = [ publish_request "token" "2024-02-29" provenir_upper (round2 5, round2 5) ].
Proof.
  split; [| repeat split].
  apply (idv _ _ EmptyString provenir_upper EmptyString EmptyString provenir_lower EmptyString); try reflexivity.
  unfold provenir_upper, provenir_lower. case_alike.
Qed.

(* ================================================================= *)
(** * Further properties of the code *)

(** ** The calculator *)

Lemma calculate_metrics_unfold df org_ids d :
  snd (calculate_metrics df org_ids d)
  = (round2 (Pandas.sum (map Total
       (filter (fun r => PyStr.mem (OrganizationID r) (map normalize org_ids))
               (cleaned df)))),
     round2 ((if 0 <? day d
              then Pandas.sum (map Total
                     (filter (fun r => PyStr.mem (OrganizationID r)
                                         (map normalize org_ids))
                             (cleaned df))) / inject_Z (day d)
              else 0)
             * inject_Z (Calendar.monthrange_days (year d) (month d))))%Q.
Proof.
  pose proof (calculate_metrics_table df org_ids d) as T.
  unfold calculate_metrics in *. simpl in T. cbv zeta. simpl snd. rewrite T.
  reflexivity.
Qed.

Lemma cleaned_filter df org_ids :
  filter (fun r => PyStr.mem (OrganizationID r) (map normalize org_ids)) (cleaned df)
  = cleaned (filter (fun r => PyStr.mem (normalize (OrganizationID r))
                                (map normalize org_ids)) df).
Proof.
  induction df as [| r df IH]; simpl; [reflexivity |].
  destruct (PyStr.mem _ _); simpl; rewrite IH; reflexivity.
Qed.

Lemma mem_belongs org_ids r :
  PyStr.mem (normalize (OrganizationID r)) (map normalize org_ids)
  = if belongs_dec org_ids r then true else false.
Proof.
  destruct (belongs_dec org_ids r) as [H | H].
  - apply mem_In. exact H.
  - destruct (PyStr.mem _ _) eqn:E; [| reflexivity].
    exfalso. apply H. apply mem_In. exact E.
Qed.

Lemma round2_zero : (round2 0 == 0)%Q.
Proof. reflexivity. Qed.

(** X1. A table with no row of the wanted ids (an empty table, an empty id
    set) gives 0 and 0, on every date. *)
Theorem calculate_metrics_no_rows :
  forall df org_ids d,
    (forall r, In r df -> ~ belongs org_ids r) ->
    metrics_eq (snd (calculate_metrics df org_ids d)) (0, 0)%Q.
Proof.
  intros df org_ids d H. rewrite calculate_metrics_unfold, cleaned_filter.
  assert (E : filter (fun r => PyStr.mem (normalize (OrganizationID r))
                                 (map normalize org_ids)) df = []).
  { induction df as [| r df IH]; simpl; [reflexivity |].
    rewrite mem_belongs. destruct (belongs_dec org_ids r) as [Hb | Hb].
    - exfalso. exact (H r (or_introl eq_refl) Hb).
    - apply IH. intros r' Hr'. apply H. right. exact Hr'. }
  rewrite E. simpl cleaned. simpl map. unfold metrics_eq. simpl fst. simpl snd.
  split; [reflexivity |].
  assert (Z0 : ((if 0 <? day d then Pandas.sum [] / inject_Z (day d) else 0)
                * inject_Z (Calendar.monthrange_days (year d) (month d)) == 0)%Q).
  { destruct (0 <? day d); unfold Pandas.sum; simpl fold_left.
    - unfold Qdiv. ring.
    - ring. }
  rewrite (round2_comp _ _ Z0). apply round2_zero.
Qed.

Lemma calculate_metrics_no_rows_witness :
  metrics_eq (snd (calculate_metrics sample_usage ["unknown"] (mkdate 2024 4 10)))
             (0, 0)%Q
  /\ metrics_eq (snd (calculate_metrics [] ["orga"] (mkdate 2024 4 10))) (0, 0)%Q
  /\ metrics_eq (snd (calculate_metrics sample_usage [] (mkdate 2024 4 10))) (0, 0)%Q.
Proof.
  split; [| split].
  - apply (calculate_metrics_no_rows sample_usage ["unknown"] (mkdate 2024 4 10)).
    intros r Hr Hb. apply mem_In in Hb.
    repeat (destruct Hr as [<- | Hr]; [discriminate Hb |]). exact Hr.
  - apply (calculate_metrics_no_rows [] ["orga"] (mkdate 2024 4 10)).
    intros r [].
  - apply (calculate_metrics_no_rows sample_usage [] (mkdate 2024 4 10)).
    intros r _ [].
Defined.



(** X3. The ids are used as a set: two id lists with the same normalized
    members give the same result, whatever their order and repetitions. *)
Theorem calculate_metrics_id_set :
  forall df org_ids org_ids' d,
    (forall x, In x (map normalize org_ids) <-> In x (map normalize org_ids')) ->
    snd (calculate_metrics df org_ids d) = snd (calculate_metrics df org_ids' d).
Proof.
  intros df org_ids org_ids' d H. rewrite !calculate_metrics_unfold.
  assert (E : filter (fun r => PyStr.mem (OrganizationID r) (map normalize org_ids))
                     (cleaned df)
              = filter (fun r => PyStr.mem (OrganizationID r) (map normalize org_ids'))
                       (cleaned df)).
  { apply filter_ext. intros r.
    destruct (PyStr.mem (OrganizationID r) (map normalize org_ids)) eqn:E1;
      destruct (PyStr.mem (OrganizationID r) (map normalize org_ids')) eqn:E2;
      try reflexivity.
    - apply mem_In, H, mem_In in E1. congruence.
    - apply mem_In, H, mem_In in E2. congruence. }
  rewrite E. reflexivity.
Qed.

Lemma calculate_metrics_id_set_witness :
  snd (calculate_metrics sample_usage ["orga"; "x"] (mkdate 2024 4 10))
  = snd (calculate_metrics sample_usage ["X"; " OrgA"; "x "; "orga"] (mkdate 2024 4 10)).
Proof.
  apply (calculate_metrics_id_set sample_usage ["orga"; "x"]
           ["X"; " OrgA"; "x "; "orga"] (mkdate 2024 4 10)).
  intros x. simpl. tauto.
Defined.

(** X4. Only the rows of the wanted ids count: two tables with the same
    such rows give the same result, so rows of other organizations can be
    added, removed or changed freely. *)
Theorem calculate_metrics_other_rows :
  forall df df' org_ids d,
    filter (fun r => if belongs_dec org_ids r then true else false) df
    = filter (fun r => if belongs_dec org_ids r then true else false) df' ->
    snd (calculate_metrics df org_ids d) = snd (calculate_metrics df' org_ids d).
Proof.
  intros df df' org_ids d H. rewrite !calculate_metrics_unfold, !cleaned_filter.
  rewrite (filter_ext _ _ (mem_belongs org_ids) df).
  rewrite (filter_ext _ _ (mem_belongs org_ids) df'). rewrite H. reflexivity.
Qed.

Lemma calculate_metrics_other_rows_witness :
  snd (calculate_metrics sample_usage ["orga"] (mkdate 2024 4 10))
  = snd (calculate_metrics
           [ mkrow "other" (Num 1000); mkrow " OrgA " (Num 100);
             mkrow "ORGA" (Text "n/a"); mkrow "orga" (Num 50) ]
           ["orga"] (mkdate 2024 4 10)).
Proof.
  apply (calculate_metrics_other_rows sample_usage
           [ mkrow "other" (Num 1000); mkrow " OrgA " (Num 100);
             mkrow "ORGA" (Text "n/a"); mkrow "orga" (Num 50) ]
           ["orga"] (mkdate 2024 4 10)).
  reflexivity.
Defined.







(** ** Normal forms of ids *)

Lemma case_alike_lower_self s : case_alike s (PyStr.lower s).
Proof.
  induction s as [| c s IH]; simpl; constructor; [| exact IH].
  unfold PyStr.lower_char. destruct (PyStr.isupper c) eqn:E.
  - apply cv_down. exact E.
  - apply cv_same.
Qed.

Lemma case_variant_sym a b : case_variant a b -> case_variant b a.
Proof. intros [c | c H | c H]; [apply cv_same | apply cv_up | apply cv_down]; exact H. Qed.

Lemma case_alike_sym s t : case_alike s t -> case_alike t s.
Proof.
  induction 1; constructor; [apply case_variant_sym |]; assumption.
Qed.

(** Two characters with one lower-case form differ in case at most. *)
Lemma lower_char_variant a b :
  PyStr.lower_char a = PyStr.lower_char b -> case_variant a b.
Proof.
  unfold PyStr.lower_char.
  destruct (PyStr.isupper a) eqn:Ea; destruct (PyStr.isupper b) eqn:Eb; intros H.
  - assert (E : a = b).
    { apply (f_equal N_of_ascii) in H.
      assert (Ha : (N_of_ascii a < 224)%N)
        by (clear - Ea; each_char a; try discriminate Ea; reflexivity).
      assert (Hb : (N_of_ascii b < 224)%N)
        by (clear - Eb; each_char b; try discriminate Eb; reflexivity).
      rewrite !N_ascii_embedding in H by lia.
      rewrite <- (ascii_N_embedding a), <- (ascii_N_embedding b). f_equal. lia. }
    subst. apply cv_same.
  - rewrite <- H. apply cv_down. exact Ea.
  - rewrite H. apply cv_up. exact Eb.
  - subst. apply cv_same.
Qed.

Lemma lower_alike s t : PyStr.lower s = PyStr.lower t -> case_alike s t.
Proof.
  revert t. induction s as [| a s IH]; intros [| b t] H; simpl in H;
    try discriminate; constructor.
  - injection H as H _. apply lower_char_variant. exact H.
  - injection H as _ H. apply IH. exact H.
Qed.

(** A string is its stripped form between two blank strings. *)
Lemma lstrip_decompose s : exists l, PyStr.blank l = true /\ s = l ++ PyStr.lstrip s.
Proof.
  induction s as [| c s [l [Hl E]]]; simpl.
  - exists EmptyString. split; reflexivity.
  - destruct (PyStr.isspace c) eqn:Ec.
    + exists (String c l). simpl. rewrite Ec, Hl, <- E. split; reflexivity.
    + exists EmptyString. split; reflexivity.
Qed.

Lemma rstrip_decompose s : exists r, PyStr.blank r = true /\ s = PyStr.rstrip s ++ r.
Proof.
  induction s as [| c s [r [Hr E]]]; simpl.
  - exists EmptyString. split; reflexivity.
  - destruct (PyStr.isspace c && PyStr.is_empty (PyStr.rstrip s)) eqn:Ec.
    + apply andb_prop in Ec as [Ec Ee].
      destruct (PyStr.rstrip s); [| discriminate]. simpl in E.
      exists (String c r). simpl. rewrite Ec, Hr, <- E. split; reflexivity.
    + exists r. simpl. rewrite <- E. split; [exact Hr | reflexivity].
Qed.

Lemma strip_decompose s :
  exists l r, PyStr.blank l = true /\ PyStr.blank r = true
              /\ s = l ++ PyStr.strip s ++ r.
Proof.
  destruct (lstrip_decompose s) as [l [Hl El]].
  destruct (rstrip_decompose (PyStr.lstrip s)) as [r [Hr Er]].
  exists l, r. unfold PyStr.strip. rewrite <- Er. auto.
Qed.

(** X6. The calculator compares two ids as equal exactly when they differ
    at most in letter case and in leading and trailing white space. *)
Theorem normalize_eq_iff_variant :
  forall s t, normalize s = normalize t <-> id_variant s t.
Proof.
  intros s t. split; [| apply normalize_variant].
  unfold normalize. intros H.
  destruct (strip_decompose s) as [l1 [r1 [Hl1 [Hr1 E1]]]].
  destruct (strip_decompose t) as [l2 [r2 [Hl2 [Hr2 E2]]]].
  apply (idv s t l1 (PyStr.strip s) r1 l2 (PyStr.strip t) r2); try assumption.
  apply lower_alike. exact H.
Qed.

(** X7. Normalizing an id gives a text with no upper-case letter and no
    white space at its ends, and leaves just such texts as they are. *)
Theorem normalize_normal_form :
  forall s,
    (PyStr.lower (normalize s) = normalize s
     /\ PyStr.strip (normalize s) = normalize s)
    /\ (normalize s = s <-> PyStr.lower s = s /\ PyStr.strip s = s).
Proof.
  intros s. split; [split |].
  - unfold normalize. apply lower_idem.
  - unfold normalize. rewrite strip_lower, strip_idem. reflexivity.
  - split.
    + intros E. split.
      * rewrite <- E at 1. unfold normalize. rewrite lower_idem. exact E.
      * rewrite <- E at 1. unfold normalize.
        rewrite strip_lower, strip_idem. exact E.
    + intros [El Es]. unfold normalize. rewrite Es. exact El.
Qed.

(** ** The roster fetcher *)

Lemma error_status_test code :
  (400 <=? code) && (code <? 600) = true <-> error_status code.
Proof. unfold error_status. rewrite andb_true_iff, Z.leb_le, Z.ltb_lt. tauto. Qed.

(** What the fetcher does, by what the request meets. *)
Lemma fetch_run w api_token limit n :
  match get_companies w api_token limit with
  | NoAnswer detail =>
      fetch_planhat_companies w api_token limit n
      = (Ret None,
         [ Log INFO MsgFetchingCompanies;
           HttpGet companies_url (bearer api_token) 0 limit;
           Log ERROR (MsgErrorFetchingCompanies (mkexn ConnectionError detail)) ], n)
  | Answer code body =>
      if (400 <=? code) && (code <? 600) then
        fetch_planhat_companies w api_token limit n
        = (Ret None,
           [ Log INFO MsgFetchingCompanies;
             HttpGet companies_url (bearer api_token) 0 limit;
             Log ERROR (MsgErrorFetchingCompanies (mkexn HTTPError "error status")) ],
           n)
      else
        match body with
        | Raise e =>
            fetch_planhat_companies w api_token limit n
            = (Ret None,
               [ Log INFO MsgFetchingCompanies;
                 HttpGet companies_url (bearer api_token) 0 limit;
                 Log ERROR (MsgErrorFetchingCompanies e) ], n)
        | Ret roster =>
            fetch_planhat_companies w api_token limit n
            = (Ret (Some roster),
               [ Log INFO MsgFetchingCompanies;
                 HttpGet companies_url (bearer api_token) 0 limit;
                 Log INFO (MsgFetchedCompanies (List.length roster)) ], n)
        end
  end.
Proof.
  unfold fetch_planhat_companies, try_except, http_result, raise_for_status, log.
  unfold bind, emit, raise, ret, lift.
  destruct (get_companies w api_token limit) as [detail | code body]; cbn [fst snd].
  - reflexivity.
  - destruct ((400 <=? code) && (code <? 600)).
    + reflexivity.
    + destruct body as [roster | e].
      * reflexivity.
      * simpl. rewrite issubclass_Exception. reflexivity.
Qed.

(** X8. The roster fetcher never raises and sends exactly one GET request,
    with offset 0 and the given limit.  It returns the roster when the
    request is answered with a status that is no error and a body that
    decodes, and [None] in every other case: no answer, an error status, or
    a body that does not decode. *)
Theorem fetch_planhat_companies_outcome :
  forall w api_token limit,
    (exists v t,
       run (fetch_planhat_companies w api_token limit) = (Ret v, t)
       /\ effects t = [HttpGet companies_url (bearer api_token) 0 limit])
    /\ (forall roster,
          fst (run (fetch_planhat_companies w api_token limit)) = Ret (Some roster)
          <-> exists code,
                get_companies w api_token limit = Answer code (Ret roster)
                /\ ~ error_status code)
    /\ (fst (run (fetch_planhat_companies w api_token limit)) = Ret None
        <-> (exists detail, get_companies w api_token limit = NoAnswer detail)
            \/ (exists code body,
                  get_companies w api_token limit = Answer code body
                  /\ (error_status code \/ exists e, body = Raise e))).
Proof.
  intros w api_token limit. unfold run.
  pose proof (fetch_run w api_token limit O) as R.
  destruct (get_companies w api_token limit) as [detail | code body].
  - rewrite R. simpl. split; [eauto |]. split.
    + intros roster. split; [discriminate | intros [c [H _]]; discriminate].
    + split; [eauto | reflexivity].
  - destruct ((400 <=? code) && (code <? 600)) eqn:E.
    + apply error_status_test in E. rewrite R. simpl. split; [eauto |]. split.
      * intros roster. split; [discriminate |].
        intros [c [H N]]. injection H as -> _. contradiction.
      * split; [| reflexivity]. intros _. right. eauto.
    + assert (N : ~ error_status code)
        by (intros H; apply error_status_test in H; congruence).
      destruct body as [roster | e]; rewrite R; simpl.
      * split; [eauto |]. split.
        -- intros roster'. split.
           ++ intros H. injection H as <-. eauto.
           ++ intros [c [H _]]. injection H as _ ->. reflexivity.
        -- split; [discriminate |].
           intros [[d H] | [c [b [H [He | [e He]]]]]]; try discriminate.
           ++ injection H as -> _. contradiction.
           ++ injection H as _ <-. discriminate.
      * split; [eauto |]. split.
        -- intros roster. split; [discriminate |].
           intros [c [H _]]. discriminate.
        -- split; [| reflexivity]. intros _. right. eauto 6.
Qed.

(** ** The rows of the roster *)

Lemma batch_row_cases c :
  (readable c /\ batch_row c = Ret (row_of c))
  \/ (~ readable c /\ exists e, batch_row c = Raise e /\ exn_class e = AttributeError).
Proof.
  destruct c as [| b | q | s | items | fields];
    try (right; split;
         [ intros [f [H _]]; discriminate
         | eexists; split; reflexivity ]).
  unfold batch_row, row_of, field. simpl.
  destruct (assoc "custom" fields) as [v |] eqn:E.
  - destruct v as [| b | q | s | items | inner];
      try (right; split;
           [ intros [f [H K]]; injection H as <-;
             destruct (K _ E) as [inner' Hi]; discriminate
           | eexists; split; reflexivity ]).
    left. split; [| reflexivity].
    exists fields. split; [reflexivity |].
    intros v H. rewrite E in H. injection H as <-. eauto.
  - left. split; [| reflexivity].
    exists fields. split; [reflexivity |].
    intros v H. rewrite E in H. discriminate.
Qed.

Lemma batch_data_cases :
  forall items,
    (forall rows,
       batch_data (JArr items) = Ret rows
       <-> Forall readable items /\ rows = map row_of items)
    /\ (forall e,
          batch_data (JArr items) = Raise e ->
          exn_class e = AttributeError /\ ~ Forall readable items).
Proof.
  intros items. unfold batch_data. simpl.
  induction items as [| c rest [IH1 IH2]]; simpl.
  - split.
    + intros rows. split.
      * intros H. injection H as <-. auto.
      * intros [_ ->]. reflexivity.
    + intros e H. discriminate.
  - destruct (batch_row_cases c) as [[Hc ->] | [Hc [e [-> He]]]].
    + destruct (batch_rows rest) as [rows' | e'] eqn:E.
      * split.
        -- intros rows. split.
           ++ intros H. injection H as <-.
              destruct (proj1 (IH1 rows') eq_refl) as [F ->]. auto.
           ++ intros [F ->]. apply Forall_inv_tail in F.
              pose proof (proj2 (IH1 (map row_of rest)) (conj F eq_refl)) as K.
              injection K as ->. reflexivity.
        -- intros e H. discriminate.
      * split.
        -- intros rows. split; [discriminate |].
           intros [F _]. apply Forall_inv_tail in F.
           pose proof (proj2 (IH1 (map row_of rest)) (conj F eq_refl)). discriminate.
        -- intros e H. injection H as <-.
           destruct (IH2 e' eq_refl) as [Hcl Hn]. split; [exact Hcl |].
           intros F. apply Hn. apply Forall_inv_tail in F. exact F.
    + split.
      * intros rows. split; [discriminate |].
        intros [F _]. apply Forall_inv in F. contradiction.
      * intros e' H. injection H as <-. split; [exact He |].
        intros F. apply Forall_inv in F. contradiction.
Qed.

(** X9. From a list of companies the rows are built exactly when every
    company is a dict whose [custom], if it has one, is a dict: then there
    is one row per company, in order, and a missing [_id], [custom],
    [Org ID] or [name] becomes [None].  Otherwise building the rows raises
    [AttributeError]. *)
Theorem batch_data_rows :
  forall items,
    (forall rows,
       batch_data (JArr items) = Ret rows
       <-> Forall readable items /\ rows = map row_of items)
    /\ (forall e,
          batch_data (JArr items) = Raise e ->
          exn_class e = AttributeError /\ ~ Forall readable items).
Proof. exact batch_data_cases. Qed.

Lemma sample_response_readable :
  Forall readable
    [ JObj [ ("_id", JStr "p1"); ("name", JStr "A");
             ("custom", JObj [("Org ID", JStr "orga")]) ];
      JObj [ ("_id", JStr "p2"); ("name", JStr "B") ] ].
Proof.
  repeat apply Forall_cons; try apply Forall_nil.
  - eexists. split; [reflexivity |]. simpl. intros v H. injection H as <-. eauto.
  - eexists. split; [reflexivity |]. simpl. intros v H. discriminate.
Qed.

Lemma batch_data_rows_witness :
  batch_data
    (JArr [ JObj [ ("_id", JStr "p1"); ("name", JStr "A");
                   ("custom", JObj [("Org ID", JStr "orga")]) ];
            JObj [ ("_id", JStr "p2"); ("name", JStr "B") ] ])
  = Ret [ mkraw (JStr "p1") (JStr "orga") (JStr "A");
          mkraw (JStr "p2") JNull (JStr "B") ]
  /\ (exn_class (mkexn AttributeError "object has no attribute 'get'")
      = AttributeError
      /\ ~ Forall readable [ JObj [("custom", JNull)] ]).
Proof.
  split.
  - apply (proj1 (batch_data_rows _)). split; [exact sample_response_readable |].
    reflexivity.
  - apply (proj2 (batch_data_rows [ JObj [("custom", JNull)] ])). reflexivity.
Defined.

(** What the fetcher does on the decoded response. *)
Lemma fetch_json_run answer api_token limit n :
  match answer with
  | NoAnswer detail =>
      fetch_planhat_companies_json answer api_token limit n
      = (Ret None,
         [ Log INFO MsgFetchingCompanies;
           HttpGet companies_url (bearer api_token) 0 limit;
           Log ERROR (MsgErrorFetchingCompanies (mkexn ConnectionError detail)) ], n)
  | Answer code body =>
      if (400 <=? code) && (code <? 600) then
        fetch_planhat_companies_json answer api_token limit n
        = (Ret None,
           [ Log INFO MsgFetchingCompanies;
             HttpGet companies_url (bearer api_token) 0 limit;
             Log ERROR (MsgErrorFetchingCompanies (mkexn HTTPError "error status")) ],
           n)
      else
        match (match body with
               | Raise e => Raise e
               | Ret companies => batch_data companies
               end) with
        | Raise e =>
            fetch_planhat_companies_json answer api_token limit n
            = (Ret None,
               [ Log INFO MsgFetchingCompanies;
                 HttpGet companies_url (bearer api_token) 0 limit;
                 Log ERROR (MsgErrorFetchingCompanies e) ], n)
        | Ret rows =>
            fetch_planhat_companies_json answer api_token limit n
            = (Ret (Some rows),
               [ Log INFO MsgFetchingCompanies;
                 HttpGet companies_url (bearer api_token) 0 limit;
                 Log INFO (MsgFetchedCompanies (List.length rows)) ], n)
        end
  end.
Proof.
  unfold fetch_planhat_companies_json, try_except, http_result, raise_for_status, log.
  unfold bind, emit, raise, ret, lift.
  destruct answer as [detail | code body]; cbn [fst snd].
  - reflexivity.
  - destruct ((400 <=? code) && (code <? 600)).
    + reflexivity.
    + destruct body as [companies | e].
      * destruct (batch_data companies) as [rows | e].
        -- reflexivity.
        -- simpl. rewrite issubclass_Exception. reflexivity.
      * simpl. rewrite issubclass_Exception. reflexivity.
Qed.

Lemma typed_rows_length rows cs :
  typed_rows rows = Some cs -> List.length cs = List.length rows.
Proof.
  revert cs. induction rows as [| r rows IH]; simpl; intros cs H.
  - injection H as <-. reflexivity.
  - destruct (typed_row r); [| discriminate].
    destruct (typed_rows rows) as [cs' |]; [| discriminate].
    injection H as <-. simpl. rewrite (IH cs' eq_refl). reflexivity.
Qed.

(** The typed fetcher does what the fetcher on the decoded response does. *)
Lemma fetch_refines w api_token limit answer n :
  typed_answer answer = Some (get_companies w api_token limit) ->
  exists r t,
    fetch_planhat_companies_json answer api_token limit n = (Ret r, t, n)
    /\ fetch_planhat_companies w api_token limit n
       = (Ret (match r with Some rows => typed_rows rows | None => None end), t, n).
Proof.
  intros H. pose proof (fetch_run w api_token limit n) as R.
  pose proof (fetch_json_run answer api_token limit n) as J.
  destruct answer as [detail | code body]; simpl in H.
  - injection H as H. rewrite <- H in R. rewrite R, J. eauto.
  - destruct (typed_body body) as [b |] eqn:B; [| discriminate].
    injection H as H. rewrite <- H in R.
    destruct ((400 <=? code) && (code <? 600)).
    + rewrite R, J. eauto.
    + unfold typed_body in B. destruct body as [companies | e].
      * destruct (batch_data companies) as [rows | e].
        -- destruct (typed_rows rows) as [cs |] eqn:T; [| discriminate].
           injection B as <-. rewrite R, J.
           rewrite (typed_rows_length rows cs T). exists (Some rows). eexists.
           split; [reflexivity |]. rewrite T. reflexivity.
        -- injection B as <-. rewrite R, J. eauto.
      * injection B as <-. rewrite R, J. eauto.
Qed.

(** X10. [fetch_planhat_companies] on a roster of texts is
    [fetch_planhat_companies] on the decoded response: when the fields of
    the rows are texts or [None], both never raise, produce the same events,
    and the one returns the rows of the other as companies. *)
Theorem fetch_planhat_companies_refines :
  forall w api_token limit answer,
    typed_answer answer = Some (get_companies w api_token limit) ->
    exists r t,
      run (fetch_planhat_companies_json answer api_token limit) = (Ret r, t)
      /\ run (fetch_planhat_companies w api_token limit)
         = (Ret (match r with Some rows => typed_rows rows | None => None end), t).
Proof.
  intros w api_token limit answer H.
  destruct (fetch_refines w api_token limit answer O H) as [r [t [J R]]].
  exists r, t. unfold run. rewrite J, R. auto.
Qed.

Lemma fetch_planhat_companies_refines_witness :
  exists r t,
    run (fetch_planhat_companies_json (Answer 200 (Ret sample_response)) "token" 500)
    = (Ret r, t)
    /\ run (fetch_planhat_companies sample_world "token" 500)
       = (Ret (match r with Some rows => typed_rows rows | None => None end), t).
Proof.
  apply (fetch_planhat_companies_refines sample_world "token" 500
           (Answer 200 (Ret sample_response))).
  reflexivity.
Defined.

(** ** Events of the downloader *)

Lemma no_http_filters t :
  forallb no_http t = true -> posts_of t = [] /\ filter is_get t = [].
Proof.
  induction t as [| ev t IH]; simpl; [auto |].
  intros H. apply andb_prop in H as [He Ht]. destruct (IH Ht) as [P G].
  unfold posts_of in *. simpl. rewrite P, G.
  destruct ev; simpl in *; try discriminate; auto.
Qed.

Lemma first_csv_no_http w target_date blobs n :
  forallb no_http (snd (fst (first_csv_for_date w target_date blobs n))) = true.
Proof.
  induction blobs as [| b rest IH | e]; simpl.
  - reflexivity.
  - destruct (_ && _); [| exact IH].
    unfold bind, log, emit, lift, ret.
    destruct (download_as_string b) as [s | e]; [| reflexivity].
    destruct (read_csv w s) as [df | e]; reflexivity.
  - reflexivity.
Qed.

(** The downloader sends no HTTP request. *)
Lemma download_no_http w bucket_name info target_date :
  forallb no_http
    (snd (run (download_and_process_csv_for_date w bucket_name info target_date)))
  = true.
Proof.
  unfold run, download_and_process_csv_for_date. name_try body clauses.
  unfold try_except.
  assert (B : forallb no_http (snd (fst (body O))) = true).
  { subst body. unfold bind, lift, emit, log.
    destruct (get_bucket w info bucket_name) as [blobs | e]; [| reflexivity].
    unfold emit. pose proof (first_csv_no_http w target_date blobs O) as F.
    destruct (first_csv_for_date w target_date blobs O) as [[r t] k].
    simpl in *. exact F. }
  destruct (body O) as [[[v | e] t1] n1]; cbn [fst snd] in *; [exact B |].
  subst clauses. destruct (download_handlers e bucket_name) as [msg ->].
  unfold bind, log, emit, ret. cbn [fst snd]. rewrite forallb_app, B. reflexivity.
Qed.

(** X11. One company that cannot be read (its [custom] is [null], say)
    makes the fetcher return [None] for the whole roster, whatever the status
    of the answer, and so the run ends with status 500 and publishes
    nothing. *)
Theorem unreadable_company_fails_the_run :
  forall items code api_token limit,
    ~ Forall readable items ->
    fst (run (fetch_planhat_companies_json (Answer code (Ret (JArr items)))
                api_token limit)) = Ret None
    /\ forall w info bucket_name dd df,
         limit = 500 ->
         config_ok w info bucket_name api_token ->
         Datetime.minus_one_day (utcnow w) = Ret dd ->
         fst (run (download_and_process_csv_for_date w bucket_name info
                     (Datetime.strftime (utcnow w)))) = Ret (Some df) ->
         typed_answer (Answer code (Ret (JArr items)))
         = Some (get_companies w api_token 500) ->
         fst (run (pull_and_update w)) = Ret ("Failed to fetch companies", 500)
         /\ posts_of (snd (run (pull_and_update w))) = [].
Proof.
  intros items code api_token limit N.
  assert (B : exists e, batch_data (JArr items) = Raise e).
  { destruct (batch_data (JArr items)) as [rows | e] eqn:E; [| eauto].
    exfalso. apply N. apply (proj1 (batch_data_cases items)) in E. tauto. }
  destruct B as [e B].
  assert (J : forall lim,
    fst (run (fetch_planhat_companies_json (Answer code (Ret (JArr items)))
                api_token lim)) = Ret None).
  { intros lim. unfold run.
    pose proof (fetch_json_run (Answer code (Ret (JArr items))) api_token lim O) as R.
    cbv beta iota in R. destruct ((400 <=? code) && (code <? 600)).
    - rewrite R. reflexivity.
    - rewrite B in R. rewrite R. reflexivity. }
  split; [apply J |].
  intros w info bucket_name dd df -> C Hd H1 T.
  destruct (fetch_refines w api_token 500 _ O T) as [r [t [Jr R]]].
  pose proof (J 500) as J5. unfold run in J5. rewrite Jr in J5. simpl in J5.
  injection J5 as ->.
  destruct (run (download_and_process_csv_for_date w bucket_name info
                   (Datetime.strftime (utcnow w)))) as [r1 t1] eqn:E1.
  simpl in H1. subst r1.
  assert (E2 : run (fetch_planhat_companies w api_token 500) = (Ret None, t))
    by (unfold run; rewrite R; reflexivity).
  rewrite (pull_and_update_no_roster w info bucket_name api_token dd df t1 t C Hd E1 E2).
  split; [reflexivity |]. simpl snd.
  pose proof (download_no_http w bucket_name info (Datetime.strftime (utcnow w))) as D.
  rewrite E1 in D. simpl in D. apply no_http_filters in D as [D _].
  assert (F : posts_of t = []).
  { pose proof (fetch_run w api_token 500 O) as Q. rewrite R in Q.
    destruct (get_companies w api_token 500) as [detail | c b].
    - injection Q as ->. reflexivity.
    - destruct ((400 <=? c) && (c <? 600)).
      + injection Q as ->. reflexivity.
      + destruct b; [discriminate Q | injection Q as ->]. reflexivity. }
  unfold posts_of in *. rewrite !filter_app, D, F. reflexivity.
Qed.

Lemma unreadable_company_fails_the_run_witness :
  fst (run (fetch_planhat_companies_json (Answer 200 (Ret null_custom_response))
              "token" 500)) = Ret None
  /\ fst (run (pull_and_update
                 (with_companies sample_world
                    (Answer 200
                       (Raise (mkexn AttributeError "object has no attribute 'get'"))))))
     = Ret ("Failed to fetch companies", 500)
  /\ posts_of (snd (run (pull_and_update
                 (with_companies sample_world
                    (Answer 200
                       (Raise (mkexn AttributeError "object has no attribute 'get'")))))))
     = [].
Proof.
  assert (N : ~ Forall readable [ JObj [ ("_id", JStr "p1"); ("custom", JNull) ] ]).
  { intros F. apply Forall_inv in F. destruct F as [fields [E K]].
    injection E as <-. destruct (K JNull eq_refl) as [inner H]. discriminate. }
  pose proof (unreadable_company_fails_the_run _ 200 "token" 500 N) as [H1 H2].
  split; [exact H1 |].
  apply (H2 (with_companies sample_world
               (Answer 200
                  (Raise (mkexn AttributeError "object has no attribute 'get'"))))
            sample_info "billing" (mkdate 2024 2 29) sample_usage eq_refl).
  - exact sample_config_ok.
  - reflexivity.
  - reflexivity.
  - reflexivity.
Defined.

(** ** The downloader: the first match *)

Lemma first_csv_skips w target_date pre rest n :
  (forall b, In b pre -> ~ (has_date target_date b /\ is_csv b)) ->
  first_csv_for_date w target_date (listing pre rest) n
  = first_csv_for_date w target_date rest n.
Proof.
  induction pre as [| b pre IH]; intros H; simpl; [reflexivity |].
  destruct (_ && _) eqn:E.
  - exfalso. apply (H b (or_introl eq_refl)). apply blob_test_spec. exact E.
  - apply IH. intros b' Hb'. apply H. right. exact Hb'.
Qed.

(** X12. The first listed object whose name contains the date and ends in
    [.csv] is the one that is read: the objects before it are skipped, the
    listing is not followed beyond it, and the table parsed from it is
    returned. *)
Theorem download_first_match :
  forall w bucket_name info target_date pre b rest s df,
    get_bucket w info bucket_name = Ret (listing pre (IterNext b rest)) ->
    (forall b', In b' pre -> ~ (has_date target_date b' /\ is_csv b')) ->
    has_date target_date b -> is_csv b ->
    download_as_string b = Ret s -> read_csv w s = Ret df ->
    run (download_and_process_csv_for_date w bucket_name info target_date)
    = (Ret (Some df),
       [ StorageGetBucket bucket_name;
         Log INFO (MsgAccessingBucket bucket_name target_date);
         Log INFO (MsgFoundFile (blob_name b));
         StorageDownload (blob_name b);
         Log INFO MsgFileProcessed ]).
Proof.
  intros w bucket_name info target_date pre b rest s df Hb Hpre Hd Hc Hs Hr.
  unfold run, download_and_process_csv_for_date, try_except.
  unfold bind at 1. unfold emit at 1. unfold bind at 1. unfold lift at 1.
  rewrite Hb. unfold bind at 1. unfold log at 1, emit at 1.
  rewrite (first_csv_skips w target_date pre (IterNext b rest) O Hpre).
  simpl first_csv_for_date.
  rewrite (proj2 (blob_test_spec target_date b) (conj Hd Hc)).
  unfold bind, log, emit, lift, ret. rewrite Hs, Hr. reflexivity.
Qed.

Lemma download_first_match_witness :
  run (download_and_process_csv_for_date
         (with_bucket sample_world
            (Ret (listing [ mkblob "usage-2024-03-01.txt" (Ret EmptyString);
                            mkblob "usage-2024-02-29.csv" (Ret EmptyString) ]
                    (IterNext (mkblob "a-2024-03-01.csv" (Ret "first"))
                       (IterNext (mkblob "b-2024-03-01.csv" (Ret "second"))
                          (IterRaise (mkexn GoogleAPIError "503")))))))
         "billing" sample_info "2024-03-01")
  = (Ret (Some sample_usage),
     [ StorageGetBucket "billing";
       Log INFO (MsgAccessingBucket "billing" "2024-03-01");
       Log INFO (MsgFoundFile "a-2024-03-01.csv");
       StorageDownload "a-2024-03-01.csv";
       Log INFO MsgFileProcessed ]).
Proof.
  apply (download_first_match _ "billing" sample_info "2024-03-01"
           [ mkblob "usage-2024-03-01.txt" (Ret EmptyString);
             mkblob "usage-2024-02-29.csv" (Ret EmptyString) ]
           (mkblob "a-2024-03-01.csv" (Ret "first"))
           (IterNext (mkblob "b-2024-03-01.csv" (Ret "second"))
              (IterRaise (mkexn GoogleAPIError "503")))
           "first" sample_usage).
  - reflexivity.
  - intros b' [<- | [<- | []]] H; apply blob_test_spec in H; discriminate.
  - exists "a-", ".csv". reflexivity.
  - exists "a-2024-03-01". reflexivity.
  - reflexivity.
  - reflexivity.
Defined.

(** X13. When reading the first matching object fails, in the download or in
    the parser, the downloader returns [None]: it tries no later object,
    whatever their names. *)
Theorem download_first_match_fails :
  forall w bucket_name info target_date pre b rest e,
    get_bucket w info bucket_name = Ret (listing pre (IterNext b rest)) ->
    (forall b', In b' pre -> ~ (has_date target_date b' /\ is_csv b')) ->
    has_date target_date b -> is_csv b ->
    download_as_string b = Raise e
    \/ (exists s, download_as_string b = Ret s /\ read_csv w s = Raise e) ->
    exists msg,
      run (download_and_process_csv_for_date w bucket_name info target_date)
      = (Ret None,
         [ StorageGetBucket bucket_name;
           Log INFO (MsgAccessingBucket bucket_name target_date);
           Log INFO (MsgFoundFile (blob_name b));
           StorageDownload (blob_name b);
           Log ERROR msg ]).
Proof.
  intros w bucket_name info target_date pre b rest e Hb Hpre Hd Hc Hf.
  unfold run, download_and_process_csv_for_date. name_try body clauses.
  unfold try_except.
  assert (B : body O
              = (Raise e,
                 [ StorageGetBucket bucket_name;
                   Log INFO (MsgAccessingBucket bucket_name target_date);
                   Log INFO (MsgFoundFile (blob_name b));
                   StorageDownload (blob_name b) ], O)).
  { subst body. unfold bind at 1. unfold emit at 1. unfold bind at 1. unfold lift at 1.
    rewrite Hb. unfold bind at 1. unfold log at 1, emit at 1.
    rewrite (first_csv_skips w target_date pre (IterNext b rest) O Hpre).
    simpl first_csv_for_date.
    rewrite (proj2 (blob_test_spec target_date b) (conj Hd Hc)).
    unfold bind, log, emit, lift, ret.
    destruct Hf as [-> | [s [-> ->]]]; reflexivity. }
  rewrite B. subst clauses. destruct (download_handlers e bucket_name) as [msg ->].
  exists msg. reflexivity.
Qed.

Lemma download_first_match_fails_witness :
  exists msg,
    run (download_and_process_csv_for_date
           (with_bucket sample_world
              (Ret (listing [ mkblob "usage-2024-03-01.txt" (Ret EmptyString) ]
                      (IterNext (mkblob "a-2024-03-01.csv"
                                        (Raise (mkexn ValueError "utf-8")))
                         (IterNext (mkblob "b-2024-03-01.csv" (Ret "second"))
                            IterEnd)))))
           "billing" sample_info "2024-03-01")
    = (Ret None,
       [ StorageGetBucket "billing";
         Log INFO (MsgAccessingBucket "billing" "2024-03-01");
         Log INFO (MsgFoundFile "a-2024-03-01.csv");
         StorageDownload "a-2024-03-01.csv";
         Log ERROR msg ]).
Proof.
  apply (download_first_match_fails _ "billing" sample_info "2024-03-01"
           [ mkblob "usage-2024-03-01.txt" (Ret EmptyString) ]
           (mkblob "a-2024-03-01.csv" (Raise (mkexn ValueError "utf-8")))
           (IterNext (mkblob "b-2024-03-01.csv" (Ret "second")) IterEnd)
           (mkexn ValueError "utf-8")).
  - reflexivity.
  - intros b' [<- | []] H; apply blob_test_spec in H; discriminate.
  - exists "a-", ".csv". reflexivity.
  - exists "a-2024-03-01". reflexivity.
  - left. reflexivity.
Defined.

(** ** The publisher *)

(** X14. Given a date text as [strftime] writes it, the publisher sends one
    POST request with the two data points of the organization and that date,
    logs whether the request met an error, and returns: it never raises, and
    it never sends a second request. *)
Theorem update_planhat_trace :
  forall w api_token company_id org_id d cum fc company_name n,
    valid_date d ->
    update_planhat w api_token company_id org_id (Datetime.strftime d) cum fc
                   company_name n
    = (Ret tt,
       [ Log INFO (MsgUpdatingPlanhat company_name);
         HttpPost dimensiondata_url (bearer api_token)
           (data_points org_id (Datetime.strftime d) cum fc);
         publish_log company_name
           (post_dimensiondata w n dimensiondata_url
              (data_points org_id (Datetime.strftime d) cum fc));
         Log INFO MsgNewline ],
       S n).
Proof.
  intros w api_token company_id org_id d cum fc company_name n V.
  unfold update_planhat. unfold bind at 1, lift. rewrite (strptime_strftime d V).
  unfold data_points, publish_log.
  set (data := [mkpoint _ cum _ _ _; _]).
  unfold try_except, http_post, http_result, raise_for_status, log.
  unfold bind, emit, raise, ret.
  destruct (post_dimensiondata w n dimensiondata_url data) as [detail | code []].
  - reflexivity.
  - cbv beta iota zeta. cbn [fst snd].
    destruct ((400 <=? code) && (code <? 600)); reflexivity.
Qed.

Lemma update_planhat_trace_witness :
  update_planhat sample_world "token" (Some "p1") "orga"
                 (Datetime.strftime (mkdate 2024 2 29)) 150 150 (Some "A") O
  = (Ret tt,
     [ Log INFO (MsgUpdatingPlanhat (Some "A"));
       HttpPost dimensiondata_url (bearer "token")
         (data_points "orga" "2024-02-29" 150 150);
       Log ERROR (MsgErrorUpdatingPlanhat (Some "A") (mkexn HTTPError "error status"));
       Log INFO MsgNewline ],
     1%nat).
Proof.
  apply (update_planhat_trace sample_world "token" (Some "p1") "orga"
           (mkdate 2024 2 29) 150 150 (Some "A") O).
  apply valid_dateb_sound. reflexivity.
Defined.

Lemma strptime_error s e : Datetime.strptime s = Raise e -> exn_class e = ValueError.
Proof.
  unfold Datetime.strptime. destruct (Datetime.parse_ymd s) as [d |].
  - destruct (valid_dateb d); [discriminate |]. intros H. injection H as <-. reflexivity.
  - intros H. injection H as <-. reflexivity.
Qed.

(** X15. A date text that is no date of the format makes the publisher
    raise [ValueError] to its caller, before it logs or sends anything: the
    parsing is outside the [try]. *)
Theorem update_planhat_bad_date :
  forall w api_token company_id org_id date_str cum fc company_name n e,
    Datetime.strptime date_str = Raise e ->
    update_planhat w api_token company_id org_id date_str cum fc company_name n
    = (Raise e, [], n)
    /\ exn_class e = ValueError.
Proof.
  intros w api_token company_id org_id date_str cum fc company_name n e H.
  split; [| exact (strptime_error _ _ H)].
  unfold update_planhat. unfold bind at 1, lift. rewrite H. reflexivity.
Qed.

Lemma update_planhat_bad_date_witness :
  update_planhat sample_world "token" (Some "p1") "orga" "2023-02-29" 1 1 (Some "A") O
  = (Raise (mkexn ValueError "date out of range"), [], O)
  /\ exn_class (mkexn ValueError "date out of range") = ValueError.
Proof.
  apply (update_planhat_bad_date sample_world "token" (Some "p1") "orga" "2023-02-29"
           1 1 (Some "A") O (mkexn ValueError "date out of range")).
  reflexivity.
Defined.

(** ** The loop over the roster *)

Lemma filter_effects (p : event -> bool) t :
  (forall ev, p ev = true -> is_log ev = false) ->
  filter p (effects t) = filter p t.
Proof.
  intros H. induction t as [| ev t IH]; simpl; [reflexivity |].
  destruct (is_log ev) eqn:L; simpl.
  - destruct (p ev) eqn:P; [| exact IH]. rewrite (H ev P) in L. discriminate.
  - rewrite IH. reflexivity.
Qed.

Lemma is_post_no_log ev : is_post ev = true -> is_log ev = false.
Proof. destruct ev; simpl; congruence. Qed.

Lemma is_sleep_no_log ev : is_sleep ev = true -> is_log ev = false.
Proof. destruct ev; simpl; congruence. Qed.

(** X16. The loop sends one publish request and pauses once for every
    roster company that has an org id, and does neither for the others: a
    roster with k such companies costs k requests and k pauses, and the loop
    returns. *)
Theorem process_companies_counts :
  forall w api_token d df roster n,
    valid_date d ->
    exists df' t,
      process_companies w api_token (Datetime.strftime d) d df roster n
      = (Ret df', t, (n + List.length (with_org_id roster))%nat)
      /\ List.length (posts_of t) = List.length (with_org_id roster)
      /\ List.length (filter is_sleep t) = List.length (with_org_id roster).
Proof.
  intros w api_token d df roster n V. revert df n.
  induction roster as [| c rest IH]; intros df n; simpl.
  - exists df, []. rewrite Nat.add_0_r. auto.
  - unfold bind. destruct (Org_ID c) as [[| a o] |] eqn:E.
    + rewrite process_company_without_id by (rewrite E; reflexivity).
      destruct (IH df n) as [df' [t [-> [P S]]]].
      unfold with_org_id in *. simpl.
      exists df', ([Log WARNING (MsgNoOrgId (Company_Name c))] ++ t)%list. auto.
    + destruct (process_company_with_id w api_token d df c a o n V E) as [t1 [-> H1]].
      destruct (IH (cleaned df) (S n)) as [df' [t [-> [P S]]]].
      unfold with_org_id in *. simpl.
      exists df', (t1 ++ t)%list. rewrite Nat.add_succ_r. split; [reflexivity |].
      unfold posts_of in *. rewrite !filter_app, !length_app, P, S.
      rewrite <- (filter_effects is_post t1 is_post_no_log).
      rewrite <- (filter_effects is_sleep t1 is_sleep_no_log).
      rewrite H1. split; reflexivity.
    + rewrite process_company_without_id by (rewrite E; reflexivity).
      destruct (IH df n) as [df' [t [-> [P S]]]].
      unfold with_org_id in *. simpl.
      exists df', ([Log WARNING (MsgNoOrgId (Company_Name c))] ++ t)%list. auto.
Qed.

Lemma process_companies_counts_witness :
  exists df' t,
    process_companies sample_world "token" (Datetime.strftime (mkdate 2024 2 29))
      (mkdate 2024 2 29) sample_usage sample_roster O
    = (Ret df', t, (0 + List.length (with_org_id sample_roster))%nat)
    /\ List.length (posts_of t) = List.length (with_org_id sample_roster)
    /\ List.length (filter is_sleep t) = List.length (with_org_id sample_roster).
Proof.
  apply (process_companies_counts sample_world "token" (mkdate 2024 2 29)
           sample_usage sample_roster O).
  apply valid_dateb_sound. reflexivity.
Defined.

(** ** What does not depend on the answers of the analytics endpoint *)

Lemma same_outside_refl {A} (x : result A * list event * nat) : same_outside x x.
Proof. repeat split. Qed.

Lemma bind_same {A B} (m m' : M A) (f g : A -> M B) n :
  same_outside (m n) (m' n) ->
  (forall a t1 n1, m' n = (Ret a, t1, n1) -> same_outside (f a n1) (g a n1)) ->
  same_outside (bind m f n) (bind m' g n).
Proof.
  unfold same_outside, bind. intros [Hr [He Hn]] H.
  destruct (m n) as [[r t] k]. destruct (m' n) as [[r' t'] k'].
  simpl in Hr, He, Hn. subst r' k'.
  destruct r as [a | e]; [| simpl; auto].
  destruct (H a t' k eq_refl) as [Fr [Fe Fn]].
  destruct (f a k) as [[r1 t1] k1]. destruct (g a k) as [[r2 t2] k2].
  simpl in *. rewrite !effects_app, He, Fe. auto.
Qed.

Lemma process_company_same w w' api_token d df c n :
  valid_date d ->
  same_outside (process_company w' api_token (Datetime.strftime d) d df c n)
               (process_company w api_token (Datetime.strftime d) d df c n).
Proof.
  intros V. destruct (Org_ID c) as [[| a o] |] eqn:E.
  - rewrite !process_company_without_id by (rewrite E; reflexivity).
    apply same_outside_refl.
  - destruct (process_company_with_id w api_token d df c a o n V E) as [t [-> H]].
    destruct (process_company_with_id w' api_token d df c a o n V E) as [t' [-> H']].
    unfold same_outside. simpl. rewrite H, H'. auto.
  - rewrite !process_company_without_id by (rewrite E; reflexivity).
    apply same_outside_refl.
Qed.

Lemma process_companies_same w w' api_token d roster :
  valid_date d ->
  forall df n,
    same_outside (process_companies w' api_token (Datetime.strftime d) d df roster n)
                 (process_companies w api_token (Datetime.strftime d) d df roster n).
Proof.
  intros V. induction roster as [| c rest IH]; intros df n; simpl.
  - apply same_outside_refl.
  - apply bind_same; [apply process_company_same, V |].
    intros df1 t1 n1 _. apply IH.
Qed.

Lemma pull_and_update_same w answers n :
  valid_date (utcnow w) ->
  same_outside (pull_and_update (with_posts w answers) n) (pull_and_update w n).
Proof.
  intros V. unfold pull_and_update. cbn [getenv json_loads utcnow with_posts].
  apply bind_same; [apply same_outside_refl |]. intros info t1 n1 _.
  destruct (_ || _); [apply same_outside_refl |].
  destruct (getenv w "BILLING_BUCKET_NAME") as [bucket_name |];
    [| apply same_outside_refl].
  destruct (getenv w "PLANHAT_API_TOKEN") as [api_token |];
    [| apply same_outside_refl].
  apply bind_same; [apply same_outside_refl |]. intros dd t2 n2 Hd.
  assert (Vd : valid_date dd).
  { apply (minus_one_day_valid (utcnow w)); [exact V |].
    unfold lift in Hd. injection Hd as Hd _ _. exact Hd. }
  apply bind_same.
  { rewrite (download_world w (with_posts w answers)) by reflexivity.
    apply same_outside_refl. }
  intros [df |] t3 n3 _; [| apply same_outside_refl].
  apply bind_same.
  { rewrite (fetch_world w (with_posts w answers)) by reflexivity.
    apply same_outside_refl. }
  intros [roster |] t4 n4 _; [| apply same_outside_refl].
  apply bind_same; [apply process_companies_same, Vd |].
  intros df' t5 n5 _. apply same_outside_refl.
Qed.

(** X17. What the analytics endpoint answers to the publish requests changes
    neither the result of the run nor anything the run sends: with any other
    answers the entry point returns the same status and produces the same
    requests, downloads and pauses. *)
Theorem publish_answers_do_not_matter :
  forall w answers,
    valid_date (utcnow w) ->
    fst (run (pull_and_update (with_posts w answers))) = fst (run (pull_and_update w))
    /\ effects (snd (run (pull_and_update (with_posts w answers))))
       = effects (snd (run (pull_and_update w))).
Proof.
  intros w answers V.
  destruct (pull_and_update_same w answers O V) as [Hr [He _]].
  unfold run. auto.
Qed.

Lemma publish_answers_do_not_matter_witness :
  fst (run (pull_and_update (with_posts sample_world (fun _ _ _ => NoAnswer "down"))))
  = fst (run (pull_and_update sample_world))
  /\ effects (snd (run (pull_and_update
                          (with_posts sample_world (fun _ _ _ => NoAnswer "down")))))
     = effects (snd (run (pull_and_update sample_world))).
Proof.
  apply (publish_answers_do_not_matter sample_world (fun _ _ _ => NoAnswer "down")).
  apply valid_dateb_sound. reflexivity.
Defined.

(** ** The entry point *)

(** X18. When no CSV is available the entry point returns
    ("CSV data not available", 500) right after the downloader: the roster
    is not fetched and nothing is published. *)
Theorem pull_and_update_without_csv :
  forall w info bucket_name api_token dd,
    config_ok w info bucket_name api_token ->
    Datetime.minus_one_day (utcnow w) = Ret dd ->
    fst (run (download_and_process_csv_for_date w bucket_name info
                (Datetime.strftime (utcnow w)))) = Ret None ->
    run (pull_and_update w)
    = (Ret ("CSV data not available", 500),
       (snd (run (download_and_process_csv_for_date w bucket_name info
                    (Datetime.strftime (utcnow w))))
        ++ [Log ERROR MsgCurrentDataNotAvailable])%list)
    /\ filter is_get (snd (run (pull_and_update w))) = []
    /\ posts_of (snd (run (pull_and_update w))) = [].
Proof.
  intros w info bucket_name api_token dd C Hd H.
  pose proof (download_no_http w bucket_name info (Datetime.strftime (utcnow w))) as N.
  destruct (run (download_and_process_csv_for_date w bucket_name info
                   (Datetime.strftime (utcnow w)))) as [r1 t1] eqn:E1.
  simpl in H, N. subst r1.
  rewrite (pull_and_update_no_csv w info bucket_name api_token dd t1 C Hd E1).
  split; [reflexivity |]. simpl snd.
  apply no_http_filters in N as [P G].
  unfold posts_of in *. rewrite !filter_app, P, G. split; reflexivity.
Qed.

Lemma pull_and_update_without_csv_witness :
  run (pull_and_update (with_bucket sample_world (Raise (mkexn Forbidden "403"))))
  = (Ret ("CSV data not available", 500),
     (snd (run (download_and_process_csv_for_date
                  (with_bucket sample_world (Raise (mkexn Forbidden "403")))
                  "billing" sample_info
                  (Datetime.strftime
                     (utcnow (with_bucket sample_world
                                (Raise (mkexn Forbidden "403")))))))
      ++ [Log ERROR MsgCurrentDataNotAvailable])%list)
  /\ filter is_get
       (snd (run (pull_and_update
                    (with_bucket sample_world (Raise (mkexn Forbidden "403"))))))
     = []
  /\ posts_of
       (snd (run (pull_and_update
                    (with_bucket sample_world (Raise (mkexn Forbidden "403"))))))
     = [].
Proof.
  apply (pull_and_update_without_csv
           (with_bucket sample_world (Raise (mkexn Forbidden "403")))
           sample_info "billing" "token" (mkdate 2024 2 29)).
  - exact sample_config_ok.
  - reflexivity.
  - reflexivity.
Defined.

(** X19. When the service-account variable holds text that [json.loads]
    cannot decode, the entry point raises the decoder's exception to its
    caller: it logs nothing, attempts nothing and returns no status. *)
Theorem pull_and_update_bad_credentials :
  forall w s e,
    getenv w "GCP_SERVICE_ACCOUNT_JSON" = Some s -> json_loads w s = Raise e ->
    run (pull_and_update w) = (Raise e, []).
Proof.
  intros w s e Hs Hj. unfold run, pull_and_update. rewrite Hs.
  unfold json_loads_env, bind, lift. rewrite Hj. reflexivity.
Qed.

Lemma pull_and_update_bad_credentials_witness :
  run (pull_and_update
         (with_json_loads sample_world
            (fun _ => Raise (mkexn JSONDecodeError "Expecting value"))))
  = (Raise (mkexn JSONDecodeError "Expecting value"), []).
Proof.
  apply (pull_and_update_bad_credentials
           (with_json_loads sample_world
              (fun _ => Raise (mkexn JSONDecodeError "Expecting value")))
           "{}" (mkexn JSONDecodeError "Expecting value")).
  - reflexivity.
  - reflexivity.
Defined.




(** ** The alias lookup *)

(** X21. The alias lookup takes the first set, in the order of the list,
    that has the id as a member, and finds none exactly when no set has
    it. *)
Theorem find_matching_set_first :
  forall o sets,
    (forall A,
       find_matching_set o sets = Some A
       <-> exists pre post,
             sets = (pre ++ A :: post)%list /\ In o A
             /\ forall B, In B pre -> ~ In o B)
    /\ (find_matching_set o sets = None <-> forall B, In B sets -> ~ In o B).
Proof.
  intros o sets. induction sets as [| S rest [IH1 IH2]]; simpl.
  - split.
    + intros A. split; [discriminate |].
      intros [pre [post [H _]]]. destruct pre; discriminate.
    + split; [intros _ B [] | reflexivity].
  - destruct (PyStr.mem o S) eqn:E.
    + apply mem_In in E. split.
      * intros A. split.
        -- intros H. injection H as <-. exists [], rest. simpl. auto.
        -- intros [pre [post [H [HA Hpre]]]]. destruct pre as [| P pre].
           ++ simpl in H. injection H as -> _. reflexivity.
           ++ simpl in H. injection H as -> _.
              exfalso. exact (Hpre P (or_introl eq_refl) E).
      * split; [discriminate |]. intros H. exfalso. exact (H S (or_introl eq_refl) E).
    + assert (N : ~ In o S) by (intros H; apply mem_In in H; congruence).
      split.
      * intros A. rewrite IH1. split.
        -- intros [pre [post [-> [HA Hpre]]]]. exists (S :: pre), post.
           split; [reflexivity |]. split; [exact HA |].
           intros B [<- | HB]; [exact N | exact (Hpre B HB)].
        -- intros [pre [post [H [HA Hpre]]]]. destruct pre as [| P pre].
           ++ simpl in H. injection H as -> _. contradiction.
           ++ simpl in H. injection H as -> ->. exists pre, post.
              split; [reflexivity |]. split; [exact HA |].
              intros B HB. apply Hpre. right. exact HB.
      * rewrite IH2. split.
        -- intros H B [<- | HB]; [exact N | exact (H B HB)].
        -- intros H B HB. apply H. right. exact HB.
Qed.
